(** * pyrun-jupyter: the command-line front end ([pyrun_jupyter/cli.py])

    A shallow embedding of the parameter-string parser ([parse_params],
    [convert_value]), of the argument parser built by [create_parser] and of
    the two command handlers ([handle_run_file], [handle_run]), followed by
    the properties the specification states about them.

    Conventions of the model.
    - A Python [str] is a [string]; each character stands for the code point
      of the same number, so the model covers text in the range U+0000 to
      U+00FF.  The character classes used by [str.strip], [str.lower],
      [int] and [float] are the ones CPython has on that range.
    - Python exceptions are values of [exn]; code that can raise returns a
      [result].  [try]/[except] selects handlers by class, subclasses
      included.
    - A Python [float] is kept as the decimal numeral it was read from
      ([pyfloat]); rounding to binary64 is not part of the model.
    - A [dict] is an association list without repeated keys, in insertion
      order.
    - Collaborators that are not in [cli.py] (the JSON decoder, [pathlib],
      [JupyterRunner]) are parameters of the sections that use them.
    - Signals that are not subclasses of [Exception] ([KeyboardInterrupt],
      [SystemExit]) are outside the model. *)

From Stdlib Require Import String Ascii List ZArith NArith Bool Arith Lia.
Import ListNotations.

Set Warnings "-register-all".

Local Open Scope list_scope.
Local Open Scope string_scope.

(** ** Python strings *)

Module PyStr.

Definition ord (c : ascii) : nat := nat_of_ascii c.

Definition between (lo hi n : nat) : bool := Nat.leb lo n && Nat.leb n hi.

(** [str.isspace] on one character: the set [str.strip()] removes. *)
Definition isspace (c : ascii) : bool :=
  let n := ord c in
  between 9 13 n || between 28 32 n || Nat.eqb n 133 || Nat.eqb n 160.

(** The white space [int()] and [float()] skip around a numeral: the
    separators U+001C to U+001F are not part of it. *)
Definition isspace_numeric (c : ascii) : bool :=
  let n := ord c in
  between 9 13 n || Nat.eqb n 32 || Nat.eqb n 133 || Nat.eqb n 160.

Definition isdigit (c : ascii) : bool := between 48 57 (ord c).

Definition digit_value (c : ascii) : nat := ord c - 48.

Definition lower_char (c : ascii) : ascii :=
  let n := ord c in
  if between 65 90 n || between 192 214 n || between 216 222 n
  then ascii_of_nat (n + 32) else c.

(** [s.lower()] *)
Fixpoint lower (s : string) : string :=
  match s with
  | EmptyString => EmptyString
  | String c r => String (lower_char c) (lower r)
  end.

Fixpoint lstrip_with (p : ascii -> bool) (s : string) : string :=
  match s with
  | EmptyString => EmptyString
  | String c r => if p c then lstrip_with p r else s
  end.

Fixpoint rstrip_with (p : ascii -> bool) (s : string) : string :=
  match s with
  | EmptyString => EmptyString
  | String c r =>
      match rstrip_with p r with
      | EmptyString => if p c then EmptyString else String c EmptyString
      | r' => String c r'
      end
  end.

Definition strip_with (p : ascii -> bool) (s : string) : string :=
  lstrip_with p (rstrip_with p s).

(** [s.strip()] *)
Definition strip (s : string) : string := strip_with isspace s.

(** [s.startswith(p)] *)
Definition startswith (s p : string) : bool := String.prefix p s.

(** [s.endswith(p)] *)
Fixpoint endswith (s p : string) : bool :=
  String.eqb s p ||
  match s with
  | EmptyString => false
  | String _ r => endswith r p
  end.

(** [sub in s] *)
Fixpoint contains (sub s : string) : bool :=
  String.prefix sub s ||
  match s with
  | EmptyString => false
  | String _ r => contains sub r
  end.

(** [s.split(sep)] for a separator of one character. *)
Fixpoint split (sep : ascii) (s : string) : list string :=
  match s with
  | EmptyString => [EmptyString]
  | String c r =>
      if Ascii.eqb c sep then EmptyString :: split sep r
      else match split sep r with
           | h :: t => String c h :: t
           | [] => [String c EmptyString]
           end
  end.

(** [s.split(sep, 1)] for a separator of one character. *)
Fixpoint split1 (sep : ascii) (s : string) : list string :=
  match s with
  | EmptyString => [EmptyString]
  | String c r =>
      if Ascii.eqb c sep then [EmptyString; r]
      else match split1 sep r with
           | h :: t => String c h :: t
           | [] => [String c EmptyString]
           end
  end.

(** [s[start:stop]] with Python's treatment of negative and
    out-of-range indices. *)
Definition slice (s : string) (start stop : Z) : string :=
  let n := Z.of_nat (String.length s) in
  let norm (i : Z) := if (i <? 0)%Z then Z.max 0 (i + n) else Z.min i n in
  let a := norm start in
  let b := norm stop in
  String.substring (Z.to_nat a) (Z.to_nat (b - a)) s.

Definition bool_of_str (s : string) : bool := negb (String.eqb s "").

End PyStr.

(** The two quote characters, as strings of length one. *)
Definition dq : string := String "034" "".
Definition sq : string := "'".

(** ** Exceptions and results *)

Inductive exn_class : Type :=
| Exception
| ValueError
| JSONDecodeError
| PyrunJupyterError
| RecursionError
| OSError
| OtherError.

(** [subclass c d]: class [c] is [d] or derives from it.  [JSONDecodeError]
    derives from [ValueError]; [PyrunJupyterError] stands for the package's
    base error and everything derived from it; [RecursionError] and
    [OSError] derive from [Exception] by other ways; [OtherError] stands for
    any other class derived from [Exception]. *)
Definition subclass (c d : exn_class) : bool :=
  match d, c with
  | Exception, _ => true
  | ValueError, (ValueError | JSONDecodeError) => true
  | JSONDecodeError, JSONDecodeError => true
  | PyrunJupyterError, PyrunJupyterError => true
  | RecursionError, RecursionError => true
  | OSError, OSError => true
  | OtherError, OtherError => true
  | _, _ => false
  end.

Record exn : Type := mkExn { exn_cls : exn_class; exn_str : string }.

Definition isinstance (e : exn) (c : exn_class) : bool := subclass (exn_cls e) c.

Inductive result (A : Type) : Type :=
| Ok (a : A)
| Raise (e : exn).
Arguments Ok {A} a.
Arguments Raise {A} e.

Definition rbind {A B : Type} (m : result A) (k : A -> result B) : result B :=
  match m with
  | Ok a => k a
  | Raise e => Raise e
  end.

(** [try: return attempt / except cls: pass], followed by [rest]. *)
Definition try_return_else {A : Type} (attempt : result A) (cls : exn_class)
    (rest : result A) : result A :=
  match attempt with
  | Ok a => Ok a
  | Raise e => if isinstance e cls then rest else Raise e
  end.

(** [try: body / except cls as e: handler e]. *)
Definition try_except {A : Type} (body : result A) (cls : exn_class)
    (handler : exn -> result A) : result A :=
  match body with
  | Ok a => Ok a
  | Raise e => if isinstance e cls then handler e else Raise e
  end.

(** ** Python values *)

(** A float as the decimal numeral it was read from:
    [FDec neg m e] is (-1)^neg * m * 10^e. *)
Inductive pyfloat : Type :=
| FNan (neg : bool)
| FInf (neg : bool)
| FDec (neg : bool) (mantissa : N) (exp10 : Z).

Inductive pyvalue : Type :=
| VNone
| VBool (b : bool)
| VInt (n : Z)
| VFloat (f : pyfloat)
| VStr (s : string)
| VList (l : list pyvalue)
| VDict (d : list (string * pyvalue)).

Definition pydict : Type := list (string * pyvalue).

(** [d[k] = v]: an existing key keeps its place, a new key goes last. *)
Fixpoint dict_set (d : pydict) (k : string) (v : pyvalue) : pydict :=
  match d with
  | [] => [(k, v)]
  | (k', v') :: r =>
      if String.eqb k' k then (k', v) :: r else (k', v') :: dict_set r k v
  end.

Fixpoint dict_get (d : pydict) (k : string) : option pyvalue :=
  match d with
  | [] => None
  | (k', v') :: r => if String.eqb k' k then Some v' else dict_get r k
  end.

(** Truth value of a dict: [bool(d)]. *)
Definition bool_of_dict (d : pydict) : bool :=
  match d with [] => false | _ :: _ => true end.

(** ** The built-ins [int] and [float] on a string *)

Module Numeral.
Import PyStr.

(** The digits that follow a first digit: [("_"? digit)*]. *)
Fixpoint more_digits (s : string) : list nat * string :=
  match s with
  | EmptyString => ([], EmptyString)
  | String c r =>
      if isdigit c then
        let (ds, rest) := more_digits r in (digit_value c :: ds, rest)
      else if Ascii.eqb c "_" then
        match r with
        | String d r' =>
            if isdigit d then
              let (ds, rest) := more_digits r' in (digit_value d :: ds, rest)
            else ([], s)
        | EmptyString => ([], s)
        end
      else ([], s)
  end.

(** [digitpart ::= digit ("_"? digit)*]: the digits read and what is left. *)
Definition digitpart (s : string) : option (list nat * string) :=
  match s with
  | String c r =>
      if isdigit c then
        let (ds, rest) := more_digits r in Some (digit_value c :: ds, rest)
      else None
  | EmptyString => None
  end.

Definition read_sign (s : string) : bool * string :=
  match s with
  | String c r =>
      if Ascii.eqb c "-" then (true, r)
      else if Ascii.eqb c "+" then (false, r)
      else (false, s)
  | EmptyString => (false, s)
  end.

Definition N_of_digits (ds : list nat) : N :=
  fold_left (fun acc d => (10 * acc + N.of_nat d)%N) ds 0%N.

Definition signed (neg : bool) (n : N) : Z :=
  if neg then (- Z.of_N n)%Z else Z.of_N n.

(** The interpreter refuses to convert numerals of more than
    [max_str_digits] digits (0 switches the limit off; numerals of at
    most 640 digits are never refused). *)
Definition exceeds_limit (max_str_digits ndigits : nat) : bool :=
  Nat.ltb 640 ndigits && Nat.ltb 0 max_str_digits
  && Nat.ltb max_str_digits ndigits.

Definition invalid_int : exn :=
  mkExn ValueError "invalid literal for int() with base 10".
Definition too_many_digits : exn :=
  mkExn ValueError "Exceeds the limit for integer string conversion".
Definition invalid_float : exn :=
  mkExn ValueError "could not convert string to float".

(** [int(value)] *)
Definition py_int (max_str_digits : nat) (value : string) : result Z :=
  let s := strip_with isspace_numeric value in
  let (neg, body) := read_sign s in
  match digitpart body with
  | Some (ds, EmptyString) =>
      if exceeds_limit max_str_digits (List.length ds)
      then Raise too_many_digits
      else Ok (signed neg (N_of_digits ds))
  | _ => Raise invalid_int
  end.

(** The exponent of a float numeral, after integer part [ip] and
    fraction [fp]. *)
Definition float_exponent (neg : bool) (ip fp : list nat) (s : string)
    : result pyfloat :=
  let mant := N_of_digits (ip ++ fp)%list in
  let shift := Z.of_nat (List.length fp) in
  match s with
  | EmptyString => Ok (FDec neg mant (- shift))
  | String c r =>
      if Ascii.eqb c "e" || Ascii.eqb c "E" then
        let (eneg, r') := read_sign r in
        match digitpart r' with
        | Some (ds, EmptyString) =>
            Ok (FDec neg mant (signed eneg (N_of_digits ds) - shift))
        | _ => Raise invalid_float
        end
      else Raise invalid_float
  end.

(** [float(value)] *)
Definition py_float (value : string) : result pyfloat :=
  let s := strip_with isspace_numeric value in
  let (neg, body) := read_sign s in
  let word := lower body in
  if String.eqb word "inf" || String.eqb word "infinity" then Ok (FInf neg)
  else if String.eqb word "nan" then Ok (FNan neg)
  else
    match digitpart body with
    | Some (ip, rest) =>
        match rest with
        | String c r2 =>
            if Ascii.eqb c "." then
              match digitpart r2 with
              | Some (fp, r3) => float_exponent neg ip fp r3
              | None => float_exponent neg ip [] r2
              end
            else float_exponent neg ip [] rest
        | EmptyString => float_exponent neg ip [] rest
        end
    | None =>
        match body with
        | String c r2 =>
            if Ascii.eqb c "." then
              match digitpart r2 with
              | Some (fp, r3) => float_exponent neg [] fp r3
              | None => Raise invalid_float
              end
            else Raise invalid_float
        | EmptyString => Raise invalid_float
        end
    end.

End Numeral.

(** ** [convert_value] *)

Section Interpreter.

(** [sys.get_int_max_str_digits()] of the running interpreter. *)
Variable int_max_str_digits : nat.

Definition convert_value (value : string) : result pyvalue :=
  if String.eqb (PyStr.lower value) "none" || String.eqb (PyStr.lower value) "null"
  then Ok VNone
  else if String.eqb (PyStr.lower value) "true" then Ok (VBool true)
  else if String.eqb (PyStr.lower value) "false" then Ok (VBool false)
  else
    try_return_else
      (rbind (Numeral.py_int int_max_str_digits value) (fun n => Ok (VInt n)))
      ValueError
    (try_return_else
      (rbind (Numeral.py_float value) (fun f => Ok (VFloat f)))
      ValueError
    (if (PyStr.startswith value dq && PyStr.endswith value dq)
        || (PyStr.startswith value sq && PyStr.endswith value sq)
     then Ok (VStr (PyStr.slice value 1 (-1)))
     else Ok (VStr value))).

End Interpreter.

(** ** [parse_params] *)

(** The exceptions [json.loads] raises on a string: [JSONDecodeError] when
    the text is not JSON, a plain [ValueError] when an integer literal has
    more digits than the interpreter converts, and any other exception, such
    as the [RecursionError] it raises on a text that is nested too deeply. *)
Inductive json_failure : Type :=
| DecodeError (msg : string)
| IntegerTooLong (msg : string)
| OtherFailure (e : exn).

Section Params.

Variable int_max_str_digits : nat.

(** [json.loads] on a string: the decoded object, or the exception it
    raises.  The decoder is the standard library's, not this program's. *)
Variable json_decode : string -> pydict + json_failure.

Definition json_loads (s : string) : result pydict :=
  match json_decode s with
  | inl d => Ok d
  | inr (DecodeError msg) => Raise (mkExn JSONDecodeError msg)
  | inr (IntegerTooLong msg) => Raise (mkExn ValueError msg)
  | inr (OtherFailure e) => Raise e
  end.

Definition invalid_pair (pair : string) : exn :=
  mkExn ValueError
    ("Invalid parameter format: '" ++ pair ++ "'. Expected 'key=value' or JSON.").

Definition unpack_error : exn :=
  mkExn ValueError "not enough values to unpack (expected 2, got 1)".

(** The loop [for pair in params_str.split(",")], with the dict built so
    far. *)
Fixpoint parse_pairs (pairs : list string) (params : pydict) : result pydict :=
  match pairs with
  | [] => Ok params
  | pair0 :: rest =>
      let pair := PyStr.strip pair0 in
      if negb (PyStr.bool_of_str pair) then parse_pairs rest params
      else if negb (PyStr.contains "=" pair) then Raise (invalid_pair pair)
      else
        match PyStr.split1 "=" pair with
        | [key; value] =>
            let key := PyStr.strip key in
            let value := PyStr.strip value in
            rbind (convert_value int_max_str_digits value) (fun v =>
            parse_pairs rest (dict_set params key v))
        | _ => Raise unpack_error
        end
  end.

Definition parse_params (params_str : option string) : result pydict :=
  match params_str with
  | None => Ok []
  | Some params_str =>
      if negb (PyStr.bool_of_str params_str) then Ok []
      else
        let params_str := PyStr.strip params_str in
        if PyStr.startswith params_str "{" && PyStr.endswith params_str "}" then
          try_except (json_loads params_str) JSONDecodeError (fun e =>
            Raise (mkExn ValueError ("Invalid JSON format: " ++ exn_str e)))
        else
          parse_pairs (PyStr.split "," params_str) []
  end.

End Params.

(** ** [create_parser] *)

Inductive arg_type : Type := TStr | TFloat.

Inductive arg_default : Type :=
| DefaultNone
| DefaultStr (s : string)
| DefaultFloat (f : pyfloat).

(** One [add_argument] call: the name (positional, or an option that starts
    with two dashes), [type], [required] and [default].  Help texts are left
    out. *)
Record Argument : Type := mkArgument {
  arg_name : string;
  arg_ty : arg_type;
  arg_required : bool;
  arg_dflt : arg_default
}.

(** One [subparsers.add_parser] call with its arguments, in the order they
    are added. *)
Record Subparser : Type := mkSubparser {
  sub_name : string;
  sub_arguments : list Argument
}.

Record ArgumentParser : Type := mkParser {
  prog : string;
  version : string;
  subparsers_dest : string;
  subparsers : list Subparser
}.

Definition run_file_parser : Subparser :=
  mkSubparser "run-file"
    [ mkArgument "filepath" TStr true DefaultNone;
      mkArgument "--url" TStr true DefaultNone;
      mkArgument "--token" TStr false DefaultNone;
      mkArgument "--kernel" TStr false (DefaultStr "python3");
      mkArgument "--params" TStr false DefaultNone;
      mkArgument "--timeout" TFloat false (DefaultFloat (FDec false 600 (-1))) ].

Definition run_parser : Subparser :=
  mkSubparser "run"
    [ mkArgument "code" TStr true DefaultNone;
      mkArgument "--url" TStr true DefaultNone;
      mkArgument "--token" TStr false DefaultNone;
      mkArgument "--kernel" TStr false (DefaultStr "python3");
      mkArgument "--timeout" TFloat false (DefaultFloat (FDec false 600 (-1))) ].

Definition create_parser : ArgumentParser :=
  mkParser "pyrun-jupyter" "%(prog)s 0.4.0" "command"
    [run_file_parser; run_parser].

Definition find_subparser (p : ArgumentParser) (command : string) : option Subparser :=
  find (fun sp => String.eqb (sub_name sp) command) (subparsers p).

(** The subcommand [command] of [p] declares the argument [name]. *)
Definition declares (p : ArgumentParser) (command name : string) : bool :=
  match find_subparser p command with
  | Some sp => existsb (fun a => String.eqb (arg_name a) name) (sub_arguments sp)
  | None => false
  end.

(** The [Namespace] that [parse_args] hands to each handler. *)
Record RunFileArgs : Type := mkRunFileArgs {
  rf_filepath : string;
  rf_url : string;
  rf_token : option string;
  rf_kernel : string;
  rf_params : option string;
  rf_timeout : pyfloat
}.

Record RunArgs : Type := mkRunArgs {
  r_code : string;
  r_url : string;
  r_token : option string;
  r_kernel : string;
  r_timeout : pyfloat
}.

Inductive Namespace : Type :=
| NoCommand
| RunFileCommand (args : RunFileArgs)
| RunCommand (args : RunArgs).

(** ** Collaborators of the handlers *)

(** Modelled from the spec: [ExecutionResult], which the runner module
    defines.  The fields are the attributes the handlers read: the two
    accumulated output texts, [has_error], the error message ([None] when
    there is none) and the traceback lines (a missing traceback is the empty
    list). *)
Record ExecutionResult : Type := mkResult {
  stdout : string;
  stderr : string;
  has_error : bool;
  error : option string;
  error_traceback : list string
}.

(** The part of [pathlib] the handlers use.  [p.exists()] answers or
    raises: an [OSError] other than "no such file" (a name that is too long,
    a directory that may not be searched) is raised again by it. *)
Record PathLib : Type := mkPathLib {
  Path : Type;
  path_of : string -> Path;             (* Path(text) *)
  path_exists : Path -> result bool;    (* p.exists() *)
  path_suffix : Path -> string;  (* p.suffix *)
  path_str : Path -> string      (* str(p) *)
}.

Record RunnerConfig : Type := mkConfig {
  cfg_url : string;
  cfg_token : option string;
  cfg_kernel_name : string
}.

(** Modelled from the spec: [JupyterRunner], the execution session of the
    runner module.  Entering the session acquires the remote context and can
    fail; [run] and [run_file] return an [ExecutionResult] or raise; leaving
    the session releases the context, never raises and lets an exception of
    the body pass. *)
Record JupyterRunner (P : Type) : Type := mkRunner {
  runner_enter : RunnerConfig -> option exn;
  runner_run_file : RunnerConfig -> P -> option pydict -> pyfloat -> result ExecutionResult;
  runner_run : RunnerConfig -> string -> pyfloat -> result ExecutionResult
}.
Arguments runner_enter {P} _ _.
Arguments runner_run_file {P} _ _ _ _ _.
Arguments runner_run {P} _ _ _ _.

(** ** Observable behaviour of a handler *)

Inductive stream : Type := Stdout | Stderr.

(** What a handler does to the outside, in order. *)
Inductive event (P : Type) : Type :=
| EvWrite (fd : stream) (text : string)
| EvHelp
| EvEnter (cfg : RunnerConfig)
| EvRunFile (filepath : P) (params : option pydict) (timeout : pyfloat)
| EvRun (code : string) (timeout : pyfloat)
| EvExit.
Arguments EvWrite {P} fd text.
Arguments EvHelp {P}.
Arguments EvEnter {P} cfg.
Arguments EvRunFile {P} filepath params timeout.
Arguments EvRun {P} code timeout.
Arguments EvExit {P}.

(** A computation that emits events and returns or raises. *)
Definition io (E A : Type) : Type := (list E * result A)%type.

Module IO.

Definition ret {E A : Type} (a : A) : io E A := ([], Ok a).

Definition raise {E A : Type} (e : exn) : io E A := ([], Raise e).

Definition bind {E A B : Type} (m : io E A) (k : A -> io E B) : io E B :=
  match m with
  | (tr, Ok a) => let (tr', r) := k a in ((tr ++ tr')%list, r)
  | (tr, Raise e) => (tr, Raise e)
  end.

Definition emit {E : Type} (ev : E) : io E unit := ([ev], Ok tt).

(** A call to a collaborator: the call is observed, then its outcome is
    returned or raised. *)
Definition call {E A : Type} (ev : E) (outcome : result A) : io E A :=
  ([ev], outcome).

Definition when {E : Type} (b : bool) (m : io E unit) : io E unit :=
  if b then m else ret tt.

Fixpoint for_each {E A : Type} (l : list A) (body : A -> io E unit) : io E unit :=
  match l with
  | [] => ret tt
  | x :: r => bind (body x) (fun _ => for_each r body)
  end.

(** [try: body] followed by [except] clauses, tried in order. *)
Definition try_ {E A : Type} (body : io E A)
    (handlers : list (exn_class * (exn -> io E A))) : io E A :=
  match body with
  | (tr, Ok a) => (tr, Ok a)
  | (tr, Raise e) =>
      match find (fun h => isinstance e (fst h)) handlers with
      | Some h => let (tr', r) := snd h e in ((tr ++ tr')%list, r)
      | None => (tr, Raise e)
      end
  end.

(** [body] followed by [cleanup] on every way out of [body]. *)
Definition ensure {E A : Type} (body : io E A) (cleanup : list E) : io E A :=
  let (tr, r) := body in ((tr ++ cleanup)%list, r).

End IO.

Declare Scope io_scope.
Delimit Scope io_scope with io.
Notation "x <- m ;; k" := (IO.bind m (fun x => k))
  (at level 61, m at next level, right associativity) : io_scope.
Notation "m ;; k" := (IO.bind m (fun _ => k))
  (at level 61, right associativity) : io_scope.

(** ** The handlers *)

Section Handlers.

Variable int_max_str_digits : nat.
Variable json_decode : string -> pydict + json_failure.
Variable pathlib : PathLib.
Variable runner : JupyterRunner (Path pathlib).

Local Abbreviation ev := (event (Path pathlib)).
Local Open Scope io_scope.

Definition nl : string := String "010" "".

(** [print(text, file=fd)] *)
Definition print (fd : stream) (text : string) : io ev unit :=
  IO.emit (EvWrite fd (text ++ nl)).

(** [print(text, end="", file=fd)] *)
Definition print_end (fd : stream) (text : string) : io ev unit :=
  IO.emit (EvWrite fd text).

(** How an f-string renders an optional string. *)
Definition format_optional (o : option string) : string :=
  match o with
  | Some s => s
  | None => "None"
  end.

(** [with JupyterRunner(url=..., token=..., kernel_name=...) as runner: body] *)
Definition with_runner {A : Type} (cfg : RunnerConfig) (body : io ev A) : io ev A :=
  IO.emit (EvEnter cfg) ;;
  match runner_enter runner cfg with
  | Some e => IO.raise e
  | None => IO.ensure body [EvExit]
  end.

(** The statements both handlers run on the result: print the output,
    then the error if there is one; the value is the exit code returned
    from inside the [with] block. *)
Definition report (result : ExecutionResult) : io ev Z :=
  IO.when (PyStr.bool_of_str (stdout result))
    (print_end Stdout (stdout result)) ;;
  IO.when (PyStr.bool_of_str (stderr result))
    (print_end Stderr (stderr result)) ;;
  if has_error result then
    print Stderr (nl ++ "Error: " ++ format_optional (error result)) ;;
    IO.when (match error_traceback result with [] => false | _ => true end)
      (IO.for_each (error_traceback result) (fun line => print Stderr line)) ;;
    IO.ret 1%Z
  else
    IO.ret 0%Z.

Definition transport_handlers : list (exn_class * (exn -> io ev Z)) :=
  [ (PyrunJupyterError,
      fun e => print Stderr ("Error: " ++ exn_str e) ;; IO.ret 1%Z);
    (Exception,
      fun e => print Stderr ("Unexpected error: " ++ exn_str e) ;; IO.ret 1%Z) ].

Definition handle_run_file (args : RunFileArgs) : io ev Z :=
  let filepath := path_of pathlib (rf_filepath args) in
  match path_exists pathlib filepath with
  | Raise e => IO.raise e
  | Ok found =>
      if negb found then
        print Stderr ("Error: File not found: " ++ path_str pathlib filepath) ;;
        IO.ret 1%Z
      else if negb (String.eqb (path_suffix pathlib filepath) ".py") then
        print Stderr
          ("Error: Expected .py file, got: " ++ path_suffix pathlib filepath) ;;
        IO.ret 1%Z
      else
        match parse_params int_max_str_digits json_decode (rf_params args) with
        | Raise e =>
            if isinstance e ValueError then
              print Stderr ("Error: Invalid params format: " ++ exn_str e) ;;
              IO.ret 1%Z
            else IO.raise e
        | Ok params =>
            let cfg := mkConfig (rf_url args) (rf_token args) (rf_kernel args) in
            IO.try_
              (with_runner cfg
                 (let params := if bool_of_dict params then Some params else None in
                  result <- IO.call (EvRunFile filepath params (rf_timeout args))
                              (runner_run_file runner cfg filepath params
                                 (rf_timeout args)) ;;
                  report result))
              transport_handlers
        end
  end.

Definition handle_run (args : RunArgs) : io ev Z :=
  let cfg := mkConfig (r_url args) (r_token args) (r_kernel args) in
  IO.try_
    (with_runner cfg
       (result <- IO.call (EvRun (r_code args) (r_timeout args))
                   (runner_run runner cfg (r_code args) (r_timeout args)) ;;
        report result))
    transport_handlers.

(** [main], from the parsed arguments on. *)
Definition main (parsed_args : Namespace) : io ev Z :=
  match parsed_args with
  | NoCommand => IO.emit EvHelp ;; IO.ret 1%Z
  | RunFileCommand args => handle_run_file args
  | RunCommand args => handle_run args
  end.

End Handlers.

(** [sys.exit(main())], the last statement of the module: the exit status of
    the process is the code [main] returns; when an exception leaves [main]
    the interpreter prints the traceback and the status is 1. *)
Definition exit_status (outcome : result Z) : Z :=
  match outcome with
  | Ok code => code
  | Raise _ => 1%Z
  end.

(** ** A concrete host, to run the handlers on examples *)

Module Sample.

Definition max_str_digits : nat := 4300.

(** A decoder for a fragment of JSON: objects, arrays, strings without
    escapes, integers, [true], [false] and [null].  Text outside the
    fragment is reported as a decoding error.  As in the interpreter, an
    integer with too many digits and a nesting deeper than the recursion
    limit are failures of their own. *)
Module Json.

(** [sys.getrecursionlimit()]; the frames already on the stack make the
    bound of the interpreter a little lower. *)
Definition recursion_limit : nat := 1000.

Definition parsed (A : Type) : Type := (A * string + json_failure)%type.

Definition expecting_value {A : Type} : parsed A :=
  inr (DecodeError "Expecting value").

Definition too_deep {A : Type} (kind : string) : parsed A :=
  inr (OtherFailure
         (mkExn RecursionError
            ("maximum recursion depth exceeded while decoding a JSON "
             ++ kind ++ " from a unicode string"))).

Definition is_ws (c : ascii) : bool :=
  Ascii.eqb c " " || Ascii.eqb c "009" || Ascii.eqb c "010" || Ascii.eqb c "013".

Definition skip (s : string) : string := PyStr.lstrip_with is_ws s.

(** The characters up to the closing quote, and what follows it. *)
Fixpoint chars (s : string) : option (string * string) :=
  match s with
  | EmptyString => None
  | String c r =>
      if Ascii.eqb c "034" then Some (EmptyString, r)
      else if Ascii.eqb c "092" || Nat.ltb (PyStr.ord c) 32 then None
      else match chars r with
           | Some (body, rest) => Some (String c body, rest)
           | None => None
           end
  end.

Fixpoint digits (s : string) : list nat * string :=
  match s with
  | String c r =>
      if PyStr.isdigit c
      then let (ds, rest) := digits r in (PyStr.digit_value c :: ds, rest)
      else ([], s)
  | EmptyString => ([], s)
  end.

Definition integer (s : string) : parsed Z :=
  let (neg, body) :=
    match s with
    | String c r => if Ascii.eqb c "-" then (true, r) else (false, s)
    | EmptyString => (false, s)
    end in
  match digits body with
  | ([], _) => expecting_value
  | (0 :: _ :: _, _) => expecting_value
  | (ds, rest) =>
      if Numeral.exceeds_limit max_str_digits (List.length ds)
      then inr (IntegerTooLong "Exceeds the limit for integer string conversion")
      else inl (Numeral.signed neg (Numeral.N_of_digits ds), rest)
  end.

Definition literal (word : string) (v : pyvalue) (s : string) : parsed pyvalue :=
  if String.prefix word s
  then inl (v, String.substring (String.length word)
                 (String.length s - String.length word) s)
  else expecting_value.

(** [depth] is the number of objects and arrays around the value. *)
Fixpoint value (fuel depth : nat) (s : string) : parsed pyvalue :=
  match fuel with
  | O => expecting_value
  | S fuel' =>
      match skip s with
      | String c r =>
          if Ascii.eqb c "{" then
            if Nat.leb recursion_limit depth then too_deep "object"
            else
              match skip r with
              | String c' r' =>
                  if Ascii.eqb c' "}" then inl (VDict [], r')
                  else match members fuel' (S depth) (skip r) [] with
                       | inl (d, rest) => inl (VDict d, rest)
                       | inr f => inr f
                       end
              | EmptyString => expecting_value
              end
          else if Ascii.eqb c "[" then
            if Nat.leb recursion_limit depth then too_deep "array"
            else
              match skip r with
              | String c' r' =>
                  if Ascii.eqb c' "]" then inl (VList [], r')
                  else match elements fuel' (S depth) (skip r) [] with
                       | inl (l, rest) => inl (VList l, rest)
                       | inr f => inr f
                       end
              | EmptyString => expecting_value
              end
          else if Ascii.eqb c "034" then
            match chars r with
            | Some (body, rest) => inl (VStr body, rest)
            | None => expecting_value
            end
          else if Ascii.eqb c "t" then literal "true" (VBool true) (String c r)
          else if Ascii.eqb c "f" then literal "false" (VBool false) (String c r)
          else if Ascii.eqb c "n" then literal "null" VNone (String c r)
          else match integer (String c r) with
               | inl (n, rest) => inl (VInt n, rest)
               | inr f => inr f
               end
      | EmptyString => expecting_value
      end
  end
with members (fuel depth : nat) (s : string) (acc : pydict) : parsed pydict :=
  match fuel with
  | O => expecting_value
  | S fuel' =>
      match s with
      | String q r =>
          if Ascii.eqb q "034" then
            match chars r with
            | Some (key, rest) =>
                match skip rest with
                | String colon rest' =>
                    if Ascii.eqb colon ":" then
                      match value fuel' depth rest' with
                      | inl (v, rest'') =>
                          let acc' := dict_set acc key v in
                          match skip rest'' with
                          | String c t =>
                              if Ascii.eqb c ","
                              then members fuel' depth (skip t) acc'
                              else if Ascii.eqb c "}" then inl (acc', t)
                              else expecting_value
                          | EmptyString => expecting_value
                          end
                      | inr f => inr f
                      end
                    else expecting_value
                | EmptyString => expecting_value
                end
            | None => expecting_value
            end
          else expecting_value
      | EmptyString => expecting_value
      end
  end
with elements (fuel depth : nat) (s : string) (acc : list pyvalue)
    : parsed (list pyvalue) :=
  match fuel with
  | O => expecting_value
  | S fuel' =>
      match value fuel' depth s with
      | inl (v, rest) =>
          let acc' := (acc ++ [v])%list in
          match skip rest with
          | String c t =>
              if Ascii.eqb c "," then elements fuel' depth t acc'
              else if Ascii.eqb c "]" then inl (acc', t)
              else expecting_value
          | EmptyString => expecting_value
          end
      | inr f => inr f
      end
  end.

Definition decode (s : string) : pydict + json_failure :=
  match value (2 * String.length s + 2) 0 s with
  | inl (VDict d, rest) =>
      match skip rest with
      | EmptyString => inl d
      | _ => inr (DecodeError "Extra data")
      end
  | inl _ => inr (DecodeError "Expecting value")
  | inr f => inr f
  end.

End Json.

(** Paths as plain POSIX text; three files exist, and a text of more
    than 255 characters is a name too long to ask about. *)
Definition files : list string := ["train.py"; "boom.py"; "notes.txt"].

Fixpoint last_dot (name : string) : option string :=
  match name with
  | EmptyString => None
  | String c r =>
      match last_dot r with
      | Some suffix => Some suffix
      | None => if Ascii.eqb c "." then Some name else None
      end
  end.

Definition suffix (name : string) : string :=
  match name with
  | EmptyString => EmptyString
  | String _ r =>
      match last_dot r with
      | Some (String dot (String c t)) => String dot (String c t)
      | _ => EmptyString
      end
  end.

Definition pathlib : PathLib :=
  mkPathLib string (fun text => text)
    (fun p =>
       if Nat.ltb 255 (String.length p)
       then Raise (mkExn OSError "[Errno 36] File name too long")
       else Ok (existsb (String.eqb p) files))
    suffix (fun p => p).

Definition zero_division : ExecutionResult :=
  mkResult "starting" "" true (Some "division by zero")
    ["Traceback (most recent call last):"; "ZeroDivisionError: division by zero"].

(** A server that is reachable unless the URL is empty; [boom.py] and the
    code [1/0] raise remotely, everything else prints the number of
    parameters it was given. *)
Definition runner : JupyterRunner string :=
  mkRunner string
    (fun cfg =>
       if String.eqb (cfg_url cfg) ""
       then Some (mkExn PyrunJupyterError "Failed to connect")
       else None)
    (fun cfg p params timeout =>
       if String.eqb p "boom.py" then Ok zero_division
       else if String.eqb (cfg_kernel_name cfg) "" then Raise (mkExn OtherError "no kernel")
       else Ok (mkResult
                  (match params with None => "no params" | Some _ => "params" end)
                  "" false None []))
    (fun cfg code timeout =>
       if String.eqb code "1/0" then Ok zero_division
       else Ok (mkResult "ok" "" false None [])).

(** The JSON text {"lr": 1, "epochs": [100, true]}. *)
Definition json_example : string :=
  "{" ++ dq ++ "lr" ++ dq ++ ": 1, " ++ dq ++ "epochs" ++ dq ++ ": [100, true]}".

(** [n] times the text [s]. *)
Fixpoint repeat_text (n : nat) (s : string) : string :=
  match n with
  | O => EmptyString
  | S k => s ++ repeat_text k s
  end.

(** A JSON object whose one member, a, holds 1200 arrays inside one
    another. *)
Definition deep_json : string :=
  "{" ++ dq ++ "a" ++ dq ++ ": " ++ repeat_text 1200 "[" ++ repeat_text 1200 "]" ++ "}".

Definition sixty : pyfloat := FDec false 600 (-1).

Definition run_file_args (file : string) (params : option string) : RunFileArgs :=
  mkRunFileArgs file "http://localhost:8888" (Some "xxx") "python3" params sixty.

Definition run_args (code : string) : RunArgs :=
  mkRunArgs code "http://localhost:8888" (Some "xxx") "python3" sixty.

End Sample.

(** * Reference definitions

    What the specification says, written independently of the code above;
    the properties below compare the two. *)

Module Spec.
Import PyStr.

(** The text of [s] without its last character. *)
Fixpoint but_last (s : string) : string :=
  match s with
  | EmptyString => EmptyString
  | String c r =>
      match r with
      | EmptyString => EmptyString
      | String _ _ => String c (but_last r)
      end
  end.

(** [r] ends with the character [q]: what comes before it. *)
Fixpoint drop_final (q : ascii) (r : string) : option string :=
  match r with
  | EmptyString => None
  | String c r' =>
      match r' with
      | EmptyString => if Ascii.eqb c q then Some EmptyString else None
      | String _ _ => option_map (String c) (drop_final q r')
      end
  end.

(** [s] is a text enclosed in a pair of [q]: the enclosed text. *)
Definition enclosed (q : ascii) (s : string) : option string :=
  match s with
  | EmptyString => None
  | String c r => if Ascii.eqb c q then drop_final q r else None
  end.

(** [s] without the pair of double or single quotes around it, if it has
    one. *)
Definition unquote (s : string) : string :=
  match enclosed "034" s with
  | Some body => body
  | None =>
      match enclosed "'" s with
      | Some body => body
      | None => s
      end
  end.

(** Coercion in the order null, bool, int, float, string; [as_text] says
    what becomes of a string that is none of the first four. *)
Definition coerce_with (as_text : string -> string) (max_str_digits : nat)
    (s : string) : pyvalue :=
  if String.eqb (lower s) "none" || String.eqb (lower s) "null" then VNone
  else if String.eqb (lower s) "true" then VBool true
  else if String.eqb (lower s) "false" then VBool false
  else
    match Numeral.py_int max_str_digits s with
    | Ok n => VInt n
    | Raise _ =>
        match Numeral.py_float s with
        | Ok f => VFloat f
        | Raise _ => VStr (as_text s)
        end
    end.

(** "... and otherwise the string itself". *)
Definition coerce : nat -> string -> pyvalue := coerce_with (fun s => s).

(** "... and otherwise the string, without the quotes around it". *)
Definition coerce_unquoting : nat -> string -> pyvalue := coerce_with unquote.

(** What the last branch of [convert_value] makes of a string, and the
    value [convert_value] returns. *)
Definition sliced_if_quoted (s : string) : string :=
  if (startswith s dq && endswith s dq) || (startswith s sq && endswith s sq)
  then slice s 1 (-1) else s.

Definition converted : nat -> string -> pyvalue := coerce_with sliced_if_quoted.

Definition is_scalar (v : pyvalue) : bool :=
  match v with
  | VList _ | VDict _ => false
  | _ => true
  end.

(** *** Key=value pairs *)

(** The text before the first [sep] of [s], and the text after it. *)
Fixpoint before_first (sep : ascii) (s : string) : string :=
  match s with
  | EmptyString => EmptyString
  | String c r => if Ascii.eqb c sep then EmptyString else String c (before_first sep r)
  end.

Fixpoint after_first (sep : ascii) (s : string) : string :=
  match s with
  | EmptyString => EmptyString
  | String c r => if Ascii.eqb c sep then r else after_first sep r
  end.

(** The pieces between commas, each stripped, those that are then empty
    skipped. *)
Definition pieces (s : string) : list string :=
  filter bool_of_str (map strip (split "," s)).

Definition lacks_equals (piece : string) : bool := negb (contains "=" piece).

Definition key_of (piece : string) : string := strip (before_first "=" piece).

Definition value_of (piece : string) : string := strip (after_first "=" piece).

(** A piece as a binding: its key and [convert_value] of its value. *)
Definition entry (max_str_digits : nat) (piece : string) : string * result pyvalue :=
  (key_of piece, convert_value max_str_digits (value_of piece)).

(** The keys in the order of their first occurrence, those in [seen]
    left out. *)
Fixpoint first_occurrences (seen keys : list string) : list string :=
  match keys with
  | [] => []
  | k :: r =>
      if existsb (String.eqb k) seen then first_occurrences seen r
      else k :: first_occurrences (seen ++ [k]) r
  end.

(** The value of the last binding of [k]. *)
Fixpoint last_value {V : Type} (k : string) (bindings : list (string * V)) : option V :=
  match bindings with
  | [] => None
  | (k', v) :: r =>
      match last_value k r with
      | Some w => Some w
      | None => if String.eqb k' k then Some v else None
      end
  end.

(** What the specification says of the result [r] of the key=value
    branch, given the pieces [ps] that are not skipped: [ValueError] for
    the first piece without "="; otherwise a dict whose keys are the keys
    of the pieces in the order of their first occurrence, each mapped to
    [convert_value] of the last value given for it. *)
Definition key_value_result (max_str_digits : nat) (ps : list string)
    (r : result pydict) : Prop :=
  match find lacks_equals ps with
  | Some bad => r = Raise (invalid_pair bad)
  | None =>
      exists d,
        r = Ok d
        /\ NoDup (map fst d)
        /\ map fst d = first_occurrences [] (map key_of ps)
        /\ forall k,
             option_map Ok (dict_get d k)
             = last_value k (map (entry max_str_digits) ps)
  end.

(** "... splits on commas, skips empty pieces": the pieces as they are,
    only those of length zero skipped. *)
Definition pieces_as_stated (s : string) : list string :=
  filter bool_of_str (split "," s).

(** "... decodes it as JSON and returns the decoded mapping, and raises
    ValueError when the JSON is invalid": the result is a mapping, or a
    [ValueError] is raised. *)
Definition json_result_as_stated (r : result pydict) : Prop :=
  (exists d, r = Ok d) \/ (exists e, r = Raise e /\ exn_cls e = ValueError).

(** The keys of a dict after one more key is stored. *)
Definition add_key (keys : list string) (k : string) : list string :=
  if existsb (String.eqb k) keys then keys else keys ++ [k].

(** Storing the binding that [a] stands for. *)
Definition store {A : Type} (key : A -> string) (val : A -> pyvalue)
    (d : pydict) (a : A) : pydict :=
  dict_set d (key a) (val a).

End Spec.

(** *** The handlers *)

Module Outcome.

(** The chunks a handler writes for the output of a result, and for its
    error. *)
Definition output_events {P : Type} (r : ExecutionResult) : list (event P) :=
  (if PyStr.bool_of_str (stdout r) then [EvWrite Stdout (stdout r)] else [])
  ++ (if PyStr.bool_of_str (stderr r) then [EvWrite Stderr (stderr r)] else []).

Definition error_events {P : Type} (r : ExecutionResult) : list (event P) :=
  EvWrite Stderr ((nl ++ "Error: " ++ format_optional (error r)) ++ nl)
  :: map (fun line => EvWrite Stderr (line ++ nl)) (error_traceback r).

(** The line written for an exception of the session. *)
Definition failure_line (e : exn) : string :=
  (if isinstance e PyrunJupyterError then "Error: " else "Unexpected error: ")
  ++ exn_str e ++ nl.

(** The [run_file] calls of a trace, with their arguments. *)
Definition run_file_calls {P : Type} (tr : list (event P))
    : list (P * option pydict * pyfloat) :=
  flat_map (fun ev =>
              match ev with
              | EvRunFile p params timeout => [(p, params, timeout)]
              | _ => []
              end) tr.

(** The parameter mapping handed to [run_file]: none for an empty dict. *)
Definition mapping_or_none (d : pydict) : option pydict :=
  match d with
  | [] => None
  | _ :: _ => Some d
  end.

Section RunFile.

Variable int_max_str_digits : nat.
Variable json_decode : string -> pydict + json_failure.
Variable pathlib : PathLib.
Variable runner : JupyterRunner (Path pathlib).

Definition config_of (args : RunFileArgs) : RunnerConfig :=
  mkConfig (rf_url args) (rf_token args) (rf_kernel args).

(** The remote execution of the file took place and reported no
    error. *)
Definition run_file_succeeds (args : RunFileArgs) : Prop :=
  let p := path_of pathlib (rf_filepath args) in
  path_exists pathlib p = Ok true /\
  path_suffix pathlib p = ".py" /\
  exists d r,
    parse_params int_max_str_digits json_decode (rf_params args) = Ok d /\
    runner_enter runner (config_of args) = None /\
    runner_run_file runner (config_of args) p (mapping_or_none d)
      (rf_timeout args) = Ok r /\
    has_error r = false.

(** The same, as a test. *)
Definition run_file_ok (args : RunFileArgs) : bool :=
  let p := path_of pathlib (rf_filepath args) in
  match path_exists pathlib p with
  | Ok true =>
      String.eqb (path_suffix pathlib p) ".py"
      && match parse_params int_max_str_digits json_decode (rf_params args) with
         | Ok d =>
             match runner_enter runner (config_of args) with
             | None =>
                 match runner_run_file runner (config_of args) p
                         (mapping_or_none d) (rf_timeout args) with
                 | Ok r => negb (has_error r)
                 | Raise _ => false
                 end
             | Some _ => false
             end
         | Raise _ => false
         end
  | _ => false
  end.

End RunFile.

(** The options the specification lists for both operations. *)
Definition operations : list string := ["run"; "run-file"].

Definition config_options : list string :=
  ["--url"; "--token"; "--kernel"; "--timeout"; "--params"].

Definition exposes_all (p : ArgumentParser) : Prop :=
  forall command option,
    In command operations -> In option config_options ->
    declares p command option = true.

End Outcome.

From Stdlib Require Import DecimalString DecimalPos DecimalZ.

(** *** Traces *)

Module Trace.

(** The events that concern the runner: everything but output. *)
Definition is_session_event {P : Type} (ev : event P) : bool :=
  match ev with
  | EvWrite _ _ | EvHelp => false
  | _ => true
  end.

Definition session_events {P : Type} (tr : list (event P)) : list (event P) :=
  filter is_session_event tr.

Definition same_stream (a b : stream) : bool :=
  match a, b with
  | Stdout, Stdout | Stderr, Stderr => true
  | _, _ => false
  end.

(** The text a trace writes to the stream [fd]. *)
Fixpoint written {P : Type} (fd : stream) (tr : list (event P)) : string :=
  match tr with
  | [] => ""
  | EvWrite fd' text :: r =>
      if same_stream fd fd' then text ++ written fd r else written fd r
  | _ :: r => written fd r
  end.

Section Run.

Variable pathlib : PathLib.
Variable runner : JupyterRunner (Path pathlib).

Definition run_config (args : RunArgs) : RunnerConfig :=
  mkConfig (r_url args) (r_token args) (r_kernel args).

(** The remote execution of the code took place and reported no
    error. *)
Definition run_succeeds (args : RunArgs) : Prop :=
  runner_enter runner (run_config args) = None /\
  exists r,
    runner_run runner (run_config args) (r_code args) (r_timeout args) = Ok r /\
    has_error r = false.

End Run.

End Trace.

(** *** Texts of values *)

Module Render.

(** [str(n)] for an integer [n]: the decimal digits, after a minus sign
    for a negative [n]. *)
Definition str_int (z : Z) : string :=
  DecimalString.NilEmpty.string_of_int (Z.to_int z).

(** [str(v)] for [None], a bool or an int. *)
Definition str_scalar (v : pyvalue) : option string :=
  match v with
  | VNone => Some "None"
  | VBool true => Some "True"
  | VBool false => Some "False"
  | VInt z => Some (str_int z)
  | _ => None
  end.

(** The number of digits of [str(v)] for an int [v]. *)
Definition digit_count (v : pyvalue) : nat :=
  match v with
  | VInt z => String.length (str_int (Z.abs z))
  | _ => 0
  end.

Fixpoint digits_of_uint (u : Decimal.uint) : list nat :=
  match u with
  | Decimal.Nil => []
  | Decimal.D0 l => 0 :: digits_of_uint l
  | Decimal.D1 l => 1 :: digits_of_uint l
  | Decimal.D2 l => 2 :: digits_of_uint l
  | Decimal.D3 l => 3 :: digits_of_uint l
  | Decimal.D4 l => 4 :: digits_of_uint l
  | Decimal.D5 l => 5 :: digits_of_uint l
  | Decimal.D6 l => 6 :: digits_of_uint l
  | Decimal.D7 l => 7 :: digits_of_uint l
  | Decimal.D8 l => 8 :: digits_of_uint l
  | Decimal.D9 l => 9 :: digits_of_uint l
  end.

(** [q] is the double or the single quote character. *)
Definition is_quote (q : ascii) : Prop := q = "034"%char \/ q = "'"%char.

(** [",".join(pieces)] *)
Fixpoint join (sep : string) (pieces : list string) : string :=
  match pieces with
  | [] => ""
  | [p] => p
  | p :: rest => p ++ sep ++ join sep rest
  end.

(** The text [key=value]. *)
Definition pair_text (kv : string * string) : string :=
  fst kv ++ "=" ++ snd kv.

(** A key and a value that a key=value string can carry as they are:
    both stripped and without a comma, the key without "=". *)
Definition clean_pair (kv : string * string) : Prop :=
  PyStr.strip (fst kv) = fst kv
  /\ PyStr.contains "," (fst kv) = false
  /\ PyStr.contains "=" (fst kv) = false
  /\ PyStr.strip (snd kv) = snd kv
  /\ PyStr.contains "," (snd kv) = false.

End Render.
(** * Properties *)

(** ** Strings *)

Module PyStrFacts.
Import PyStr Spec.

Lemma bool_of_str_false s : bool_of_str s = false <-> s = "".
Proof.
  unfold bool_of_str. rewrite negb_false_iff. apply String.eqb_eq.
Qed.

Lemma bool_of_str_true s : bool_of_str s = true <-> s <> "".
Proof.
  unfold bool_of_str. rewrite negb_true_iff. apply String.eqb_neq.
Qed.

Lemma startswith_char c s :
  startswith s (String c "") = true <-> exists r, s = String c r.
Proof.
  unfold startswith. destruct s as [|a r]; simpl.
  - split; [discriminate | intros [r' H]; discriminate].
  - destruct (ascii_dec c a) as [->|Hne].
    + destruct r; split; eauto.
    + split; [discriminate | intros [r' H]; congruence].
Qed.

Lemma substring_take_cons c m s :
  String.substring 0 (S m) (String c s) = String c (String.substring 0 m s).
Proof. reflexivity. Qed.

Lemma substring_skip_cons c n m s :
  String.substring (S n) m (String c s) = String.substring n m s.
Proof. reflexivity. Qed.

Lemma substring_but_last s :
  String.substring 0 (String.length s - 1) s = but_last s.
Proof.
  induction s as [|c r IH]; [reflexivity|].
  destruct r as [|d r']; [reflexivity|].
  replace (String.length (String c (String d r')) - 1)
    with (S (String.length (String d r') - 1)) by (cbn [String.length]; lia).
  rewrite substring_take_cons, IH. reflexivity.
Qed.

(** [s[1:-1]] drops the first and the last character; on a string of one
    character nothing is left. *)
Lemma slice_inner c r : slice (String c r) 1 (-1) = but_last r.
Proof.
  unfold slice.
  replace (Z.of_nat (String.length (String c r)))
    with (Z.of_nat (String.length r) + 1)%Z by (cbn [String.length]; lia).
  change (1 <? 0)%Z with false. change (-1 <? 0)%Z with true. cbv iota.
  replace (Z.min 1 (Z.of_nat (String.length r) + 1)) with 1%Z by lia.
  replace (Z.max 0 (-1 + (Z.of_nat (String.length r) + 1)))
    with (Z.of_nat (String.length r)) by lia.
  replace (Z.to_nat (Z.of_nat (String.length r) - 1))
    with (String.length r - 1) by lia.
  change (Z.to_nat 1) with 1.
  rewrite substring_skip_cons. apply substring_but_last.
Qed.

End PyStrFacts.

Module QuoteFacts.
Import PyStr Spec PyStrFacts.

Lemma drop_final_endswith q r :
  drop_final q r =
  if endswith r (String q "") then Some (but_last r) else None.
Proof.
  induction r as [|c r' IH]; [reflexivity|].
  destruct r' as [|d r''].
  - cbn. destruct (Ascii.eqb c q); reflexivity.
  - change (drop_final q (String c (String d r'')))
      with (option_map (String c) (drop_final q (String d r''))).
    rewrite IH.
    change (endswith (String c (String d r'')) (String q ""))
      with (String.eqb (String c (String d r'')) (String q "")
            || endswith (String d r'') (String q "")).
    replace (String.eqb (String c (String d r'')) (String q "")) with false
      by (cbn; destruct (Ascii.eqb c q); reflexivity).
    cbn [orb].
    destruct (endswith (String d r'') (String q "")); reflexivity.
Qed.

Lemma enclosed_code q s :
  s <> String q "" ->
  enclosed q s =
  if startswith s (String q "") && endswith s (String q "")
  then Some (slice s 1 (-1)) else None.
Proof.
  intros Hs. destruct s as [|c r]; [reflexivity|].
  cbn [enclosed]. rewrite slice_inner.
  unfold startswith. cbn [String.prefix].
  destruct (Ascii.eqb_spec c q) as [->|Hne].
  - destruct (ascii_dec q q) as [_|Hn]; [|congruence].
    assert (Hr : r <> "") by (intros ->; apply Hs; reflexivity).
    replace (String.prefix "" r) with true by (destruct r; reflexivity).
    cbn [andb].
    change (endswith (String q r) (String q ""))
      with (String.eqb (String q r) (String q "") || endswith r (String q "")).
    replace (String.eqb (String q r) (String q "")) with false.
    + cbn [orb]. apply drop_final_endswith.
    + symmetry. apply String.eqb_neq. congruence.
  - destruct (ascii_dec q c) as [Heq|_]; [congruence|]. reflexivity.
Qed.

(** Away from the two strings that consist of one quote character, the
    last branch of [convert_value] removes the enclosing pair of quotes. *)
Lemma unquote_code s :
  s <> dq -> s <> sq ->
  sliced_if_quoted s = unquote s.
Proof.
  intros Hd Hs. unfold unquote, sliced_if_quoted.
  rewrite (enclosed_code "034" s Hd), (enclosed_code "'" s Hs).
  fold dq. fold sq.
  destruct (startswith s dq && endswith s dq); [reflexivity|].
  destruct (startswith s sq && endswith s sq); reflexivity.
Qed.

End QuoteFacts.

(** ** [convert_value] *)

Module NumeralFacts.
Import Numeral.

(** [int()] on a string raises nothing but [ValueError]. *)
Lemma py_int_raises lim s e :
  py_int lim s = Raise e -> isinstance e ValueError = true.
Proof.
  unfold py_int.
  destruct (read_sign _) as [neg body].
  destruct (digitpart body) as [[ds [|c rest]]|];
    try (intros H; injection H as <-; reflexivity).
  destruct (exceeds_limit lim (List.length ds));
    [intros H; injection H as <-; reflexivity | discriminate].
Qed.

Lemma float_exponent_raises neg ip fp s e :
  float_exponent neg ip fp s = Raise e -> isinstance e ValueError = true.
Proof.
  unfold float_exponent. destruct s as [|c r]; [discriminate|].
  destruct (Ascii.eqb c "e" || Ascii.eqb c "E");
    [|intros H; injection H as <-; reflexivity].
  destruct (read_sign r) as [eneg r'].
  destruct (digitpart r') as [[ds [|c' rest]]|];
    try discriminate; intros H; injection H as <-; reflexivity.
Qed.

(** [float()] on a string raises nothing but [ValueError]. *)
Lemma py_float_raises s e :
  py_float s = Raise e -> isinstance e ValueError = true.
Proof.
  unfold py_float.
  destruct (read_sign _) as [neg body].
  destruct (_ || _); [discriminate|].
  destruct (String.eqb _ "nan"); [discriminate|].
  destruct (digitpart body) as [[ip rest]|].
  - destruct rest as [|c r2]; [apply float_exponent_raises|].
    destruct (Ascii.eqb c ".");
      [destruct (digitpart r2) as [[fp r3]|]|]; apply float_exponent_raises.
  - destruct body as [|c r2]; [intros H; injection H as <-; reflexivity|].
    destruct (Ascii.eqb c "."); [|intros H; injection H as <-; reflexivity].
    destruct (digitpart r2) as [[fp r3]|];
      [apply float_exponent_raises | intros H; injection H as <-; reflexivity].
Qed.

End NumeralFacts.

Section ConvertValue.

Variable int_max_str_digits : nat.

(** The code computes [Spec.converted]: it never raises. *)
Lemma convert_value_branches value :
  convert_value int_max_str_digits value
  = Ok (Spec.converted int_max_str_digits value).
Proof.
  unfold convert_value, Spec.converted, Spec.coerce_with, Spec.sliced_if_quoted.
  destruct (_ || _); [reflexivity|].
  destruct (String.eqb _ "true"); [reflexivity|].
  destruct (String.eqb _ "false"); [reflexivity|].
  destruct (Numeral.py_int int_max_str_digits value) as [n|e] eqn:Hint;
    [reflexivity|].
  cbn [rbind try_return_else].
  rewrite (NumeralFacts.py_int_raises _ _ _ Hint).
  destruct (Numeral.py_float value) as [f|e'] eqn:Hfloat; [reflexivity|].
  cbn [rbind try_return_else].
  rewrite (NumeralFacts.py_float_raises _ _ Hfloat).
  destruct (_ || _); reflexivity.
Qed.

(** C8. [convert_value] is total: whatever the string, it returns a value
    and does not raise, and the value is [None], a bool, an int, a float
    or a str. *)
Theorem convert_value_total (value : string) :
  exists v, convert_value int_max_str_digits value = Ok v /\ Spec.is_scalar v = true.
Proof.
  rewrite convert_value_branches. eexists. split; [reflexivity|].
  unfold Spec.converted, Spec.coerce_with.
  repeat match goal with
         | |- context [if ?b then _ else _] => destruct b
         | |- context [match ?r with Ok _ => _ | Raise _ => _ end] => destruct r
         end; reflexivity.
Qed.

(** C2, amended. [convert_value] coerces in the order null, bool, int,
    float, string: [None] for "none" and "null" in any letter case, the
    bool for "true" and "false", the int when [int] accepts the string,
    the float when [float] does, and otherwise the string, without the
    pair of double or single quotes around it when it has one.  (The two
    strings made of one quote character alone are left aside.) *)
Theorem convert_value_priority (value : string) :
  value <> dq -> value <> sq ->
  convert_value int_max_str_digits value
  = Ok (Spec.coerce_unquoting int_max_str_digits value).
Proof.
  intros Hd Hs. rewrite convert_value_branches.
  unfold Spec.converted, Spec.coerce_unquoting, Spec.coerce_with.
  rewrite (QuoteFacts.unquote_code value Hd Hs). reflexivity.
Qed.

(** C10: the missed case.  A string that is one quote character, double
    or single, is not enclosed in a pair of quotes, and the reference
    keeps it; the code returns the empty string. *)
Theorem convert_value_lone_quote :
  convert_value int_max_str_digits dq = Ok (VStr "") /\
  convert_value int_max_str_digits sq = Ok (VStr "") /\
  Spec.coerce_unquoting int_max_str_digits dq = VStr dq /\
  Spec.coerce_unquoting int_max_str_digits sq = VStr sq.
Proof. repeat split. Qed.

End ConvertValue.

(** C2 as stated fails: the quoted text ['x'] is not returned as it is. *)
Lemma convert_value_not_itself :
  convert_value Sample.max_str_digits "'x'"
  <> Ok (Spec.coerce Sample.max_str_digits "'x'").
Proof. vm_compute. discriminate. Qed.

Lemma convert_value_priority_witness :
  convert_value Sample.max_str_digits "'x'" = Ok (VStr "x").
Proof.
  apply (convert_value_priority Sample.max_str_digits "'x'"); discriminate.
Defined.

(** ** Dictionaries *)

Module DictFacts.

Import Spec.

Lemma existsb_eqb_In k keys : existsb (String.eqb k) keys = true <-> In k keys.
Proof.
  rewrite existsb_exists. split.
  - intros [x [Hin Heq]]. apply String.eqb_eq in Heq. subst. exact Hin.
  - intros Hin. exists k. split; [exact Hin | apply String.eqb_refl].
Qed.

Lemma keys_dict_set d k v : map fst (dict_set d k v) = add_key (map fst d) k.
Proof.
  unfold add_key. induction d as [|[k' v'] r IH]; [reflexivity|].
  cbn [dict_set map fst existsb].
  rewrite (String.eqb_sym k k').
  destruct (String.eqb k' k); [reflexivity|].
  cbn [orb map fst]. rewrite IH.
  destruct (existsb (String.eqb k) (map fst r)); reflexivity.
Qed.

Lemma dict_get_set d k v k' :
  dict_get (dict_set d k v) k' =
  if String.eqb k k' then Some v else dict_get d k'.
Proof.
  induction d as [|[k0 v0] r IH].
  - reflexivity.
  - cbn [dict_set].
    destruct (String.eqb_spec k0 k) as [->|Hne]; cbn [dict_get].
    + destruct (String.eqb k k'); reflexivity.
    + rewrite IH.
      destruct (String.eqb_spec k0 k') as [->|Hne'];
        [|reflexivity].
      destruct (String.eqb_spec k k') as [->|_]; [congruence | reflexivity].
Qed.

Lemma fold_add_key keys acc :
  fold_left add_key keys acc = (acc ++ Spec.first_occurrences acc keys)%list.
Proof.
  revert acc. induction keys as [|k r IH]; intros acc.
  - cbn. now rewrite app_nil_r.
  - cbn [fold_left Spec.first_occurrences]. rewrite IH. unfold add_key.
    destruct (existsb (String.eqb k) acc); [reflexivity|].
    now rewrite <- app_assoc.
Qed.

Lemma NoDup_first_occurrences keys acc :
  NoDup acc -> NoDup (acc ++ Spec.first_occurrences acc keys)%list.
Proof.
  revert acc. induction keys as [|k r IH]; intros acc Hacc.
  - cbn. now rewrite app_nil_r.
  - cbn [Spec.first_occurrences].
    destruct (existsb (String.eqb k) acc) eqn:Hk; [now apply IH|].
    replace (acc ++ k :: Spec.first_occurrences (acc ++ [k]) r)%list
      with ((acc ++ [k]) ++ Spec.first_occurrences (acc ++ [k]) r)%list
      by now rewrite <- app_assoc.
    apply IH. apply NoDup_app; [exact Hacc | repeat constructor; intros [] |].
    intros x Hx [<-|[]].
    apply existsb_eqb_In in Hx. congruence.
Qed.

Section Fold.
Variable A : Type.
Variable key : A -> string.
Variable val : A -> pyvalue.

Local Abbreviation store := (Spec.store key val).

Lemma keys_fold l acc :
  map fst (fold_left store l acc) = fold_left add_key (map key l) (map fst acc).
Proof.
  revert acc. induction l as [|a r IH]; intros acc; [reflexivity|].
  cbn [fold_left map]. rewrite IH. unfold store.
  now rewrite keys_dict_set.
Qed.

Lemma dict_get_fold l acc k :
  dict_get (fold_left store l acc) k =
  match Spec.last_value k (map (fun a => (key a, val a)) l) with
  | Some v => Some v
  | None => dict_get acc k
  end.
Proof.
  revert acc. induction l as [|a r IH]; intros acc; [reflexivity|].
  cbn [fold_left map Spec.last_value]. rewrite IH.
  destruct (Spec.last_value k _); [reflexivity|].
  unfold store. rewrite dict_get_set.
  destruct (String.eqb (key a) k); reflexivity.
Qed.

Lemma last_value_map {B : Type} (g : pyvalue -> B) l k :
  Spec.last_value k (map (fun a => (key a, g (val a))) l) =
  option_map g (Spec.last_value k (map (fun a => (key a, val a)) l)).
Proof.
  induction l as [|a r IH]; [reflexivity|].
  cbn [map Spec.last_value]. rewrite IH.
  destruct (Spec.last_value k (map (fun a => (key a, val a)) r));
    [reflexivity|].
  cbn [option_map]. destruct (String.eqb (key a) k); reflexivity.
Qed.

End Fold.

End DictFacts.

(** ** [parse_params] *)

Module SplitFacts.
Import PyStr Spec.

Lemma contains_char sep c r :
  contains (String sep "") (String c r) =
  Ascii.eqb c sep || contains (String sep "") r.
Proof.
  cbn [contains String.prefix].
  destruct (ascii_dec sep c) as [->|Hne].
  - rewrite Ascii.eqb_refl. now destruct r.
  - replace (Ascii.eqb c sep) with false; [reflexivity|].
    symmetry. apply Ascii.eqb_neq. congruence.
Qed.

(** A text that contains [sep] splits in two at its first [sep]. *)
Lemma split1_contains sep s :
  contains (String sep "") s = true ->
  split1 sep s = [before_first sep s; after_first sep s].
Proof.
  induction s as [|c r IH]; [discriminate|].
  rewrite contains_char. cbn [split1 before_first after_first].
  destruct (Ascii.eqb c sep); [reflexivity|].
  cbn [orb]. intros H. rewrite (IH H). reflexivity.
Qed.

Lemma strip_empty : strip "" = "".
Proof. reflexivity. Qed.

End SplitFacts.

Section ParseParams.

Variable int_max_str_digits : nat.
Variable json_decode : string -> pydict + json_failure.

(** The loop stops at the first piece without "="; without such a piece
    it stores the bindings from left to right. *)
Lemma parse_pairs_fold pairs acc :
  parse_pairs int_max_str_digits pairs acc =
  let ps := filter PyStr.bool_of_str (map PyStr.strip pairs) in
  match find Spec.lacks_equals ps with
  | Some bad => Raise (invalid_pair bad)
  | None =>
      Ok (fold_left
            (Spec.store Spec.key_of (fun p => Spec.converted int_max_str_digits (Spec.value_of p)))
            ps acc)
  end.
Proof.
  revert acc. induction pairs as [|pair0 rest IH]; intros acc; [reflexivity|].
  cbn [parse_pairs map filter].
  destruct (PyStr.bool_of_str (PyStr.strip pair0)) eqn:Hne; cbn [negb].
  - cbn [find]. unfold Spec.lacks_equals at 1.
    destruct (PyStr.contains "=" (PyStr.strip pair0)) eqn:Heq; cbn [negb].
    + rewrite (SplitFacts.split1_contains _ _ Heq).
      rewrite convert_value_branches. cbn [rbind].
      rewrite IH. reflexivity.
    + reflexivity.
  - apply IH.
Qed.

(** The JSON branch: what [parse_params] makes of each outcome of the
    decoder. *)
Lemma parse_params_json_branch params_str :
  PyStr.startswith (PyStr.strip params_str) "{" = true ->
  PyStr.endswith (PyStr.strip params_str) "}" = true ->
  parse_params int_max_str_digits json_decode (Some params_str)
  = match json_decode (PyStr.strip params_str) with
    | inl d => Ok d
    | inr (DecodeError msg) =>
        Raise (mkExn ValueError ("Invalid JSON format: " ++ msg))
    | inr (IntegerTooLong msg) => Raise (mkExn ValueError msg)
    | inr (OtherFailure e) =>
        if isinstance e JSONDecodeError
        then Raise (mkExn ValueError ("Invalid JSON format: " ++ exn_str e))
        else Raise e
    end.
Proof.
  intros Hopen Hclose. unfold parse_params.
  assert (Hne : PyStr.bool_of_str params_str = true).
  { apply PyStrFacts.bool_of_str_true. intros ->. discriminate Hopen. }
  rewrite Hne, Hopen, Hclose. cbn [negb andb].
  unfold json_loads. destruct (json_decode _) as [d|[msg|msg|e]]; reflexivity.
Qed.

(** What [parse_params] raises is a [ValueError], or else it is what the
    JSON decoder itself raised on a string of the JSON form. *)
Lemma parse_params_raises params_str e :
  parse_params int_max_str_digits json_decode params_str = Raise e ->
  exn_cls e = ValueError
  \/ (isinstance e JSONDecodeError = false
      /\ exists s,
           params_str = Some s
           /\ PyStr.startswith (PyStr.strip s) "{"
                && PyStr.endswith (PyStr.strip s) "}" = true
           /\ json_decode (PyStr.strip s) = inr (OtherFailure e)).
Proof.
  unfold parse_params. destruct params_str as [s|]; [|discriminate].
  destruct (negb (PyStr.bool_of_str s)); [discriminate|].
  destruct (_ && _) eqn:Hshape.
  - unfold json_loads.
    destruct (json_decode _) as [d|[msg|msg|e']] eqn:Hdec; cbn [try_except].
    + discriminate.
    + cbn. intros H. injection H as <-. now left.
    + cbn. intros H. injection H as <-. now left.
    + destruct (isinstance e' JSONDecodeError) eqn:Hcls; intros H;
        injection H as <-; [now left|].
      right. split; [exact Hcls|]. exists s. auto.
  - rewrite parse_pairs_fold. cbv zeta.
    destruct (find _ _); [|discriminate].
    intros H. injection H as <-. now left.
Qed.

(** C3, amended.  A parameter string that is not of the JSON form is cut
    at the commas; each piece is stripped and the pieces that are then
    empty are skipped.  If one of the others has no "=", [ValueError] is
    raised for the first such piece.  Otherwise each piece is cut at its
    first "=", key and value are stripped, and the dict returned maps
    each key to [convert_value] of the last value given for it, the keys
    in the order in which they first occur. *)
Theorem parse_params_key_value (params_str : string) :
  PyStr.startswith (PyStr.strip params_str) "{"
    && PyStr.endswith (PyStr.strip params_str) "}" = false ->
  Spec.key_value_result int_max_str_digits
    (Spec.pieces (PyStr.strip params_str))
    (parse_params int_max_str_digits json_decode (Some params_str)).
Proof.
  intros Hjson. unfold Spec.key_value_result, parse_params.
  destruct (PyStr.bool_of_str params_str) eqn:Hne; cbn [negb].
  - rewrite Hjson, parse_pairs_fold. cbv zeta.
    fold (Spec.pieces (PyStr.strip params_str)).
    set (l := Spec.pieces (PyStr.strip params_str)).
    destruct (find Spec.lacks_equals _); [reflexivity|].
    eexists. split; [reflexivity|].
    rewrite DictFacts.keys_fold, DictFacts.fold_add_key. cbn [map app].
    split; [|split].
    + apply (DictFacts.NoDup_first_occurrences _ []). constructor.
    + reflexivity.
    + intros k. rewrite DictFacts.dict_get_fold. cbn [dict_get].
      replace (map (Spec.entry int_max_str_digits) l)
        with (map (fun p => (Spec.key_of p,
                             Ok (Spec.converted int_max_str_digits (Spec.value_of p)))) l)
        by (apply map_ext; intros p; unfold Spec.entry;
            now rewrite convert_value_branches).
      rewrite (DictFacts.last_value_map _ Spec.key_of
                 (fun p => Spec.converted int_max_str_digits (Spec.value_of p)) Ok).
      destruct (Spec.last_value k _); reflexivity.
  - apply PyStrFacts.bool_of_str_false in Hne. subst params_str.
    cbn. eexists. repeat split; constructor.
Qed.

(** C4, amended.  A parameter string that, once stripped, starts with
    an opening and ends with a closing brace is handed to the JSON
    decoder, and the result is the decoder's alone: the key=value pairs
    play no part.  The decoded mapping is returned.  A [JSONDecodeError]
    is raised again as a plain [ValueError] with the text "Invalid JSON
    format: ...", so nothing that [parse_params] raises is a
    [JSONDecodeError].  Any other exception of the decoder is raised as
    it is: the [ValueError] for an integer with too many digits stays a
    [ValueError], and what is raised without being a [ValueError] is the
    decoder's own exception, such as its [RecursionError]. *)
Theorem parse_params_json (params_str : string) :
  PyStr.startswith (PyStr.strip params_str) "{" = true ->
  PyStr.endswith (PyStr.strip params_str) "}" = true ->
  parse_params int_max_str_digits json_decode (Some params_str)
  = match json_decode (PyStr.strip params_str) with
    | inl d => Ok d
    | inr (DecodeError msg) =>
        Raise (mkExn ValueError ("Invalid JSON format: " ++ msg))
    | inr (IntegerTooLong msg) => Raise (mkExn ValueError msg)
    | inr (OtherFailure e) =>
        if isinstance e JSONDecodeError
        then Raise (mkExn ValueError ("Invalid JSON format: " ++ exn_str e))
        else Raise e
    end
  /\ forall e,
       parse_params int_max_str_digits json_decode (Some params_str) = Raise e ->
       isinstance e JSONDecodeError = false
       /\ (exn_cls e = ValueError
           \/ json_decode (PyStr.strip params_str) = inr (OtherFailure e)).
Proof.
  intros Hopen Hclose.
  split; [exact (parse_params_json_branch params_str Hopen Hclose)|].
  intros e He.
  destruct (parse_params_raises _ _ He) as [Hcls|[Hcls (s & Hs & _ & Hdec)]].
  - split; [|now left]. unfold isinstance. now rewrite Hcls.
  - injection Hs as <-. split; [exact Hcls | now right].
Qed.

End ParseParams.

(** C3 as stated fails: a piece of white space is not empty and has no "=",
    yet it is skipped and no [ValueError] is raised. *)
Lemma blank_piece_skipped :
  parse_params Sample.max_str_digits Sample.Json.decode (Some "a=1, ,b=2")
  = Ok [("a", VInt 1); ("b", VInt 2)]
  /\ find Spec.lacks_equals (Spec.pieces_as_stated "a=1, ,b=2") = Some " "
  /\ ~ Spec.key_value_result Sample.max_str_digits
        (Spec.pieces_as_stated (PyStr.strip "a=1, ,b=2"))
        (parse_params Sample.max_str_digits Sample.Json.decode (Some "a=1, ,b=2")).
Proof.
  split; [reflexivity|]. split; [reflexivity|].
  vm_compute. discriminate.
Qed.

Lemma parse_params_key_value_witness :
  exists d,
    parse_params Sample.max_str_digits Sample.Json.decode
      (Some " lr=0.01, epochs = 100 ,, lr=1e-3 ") = Ok d
    /\ NoDup (map fst d)
    /\ map fst d = ["lr"; "epochs"]
    /\ forall k,
         option_map Ok (dict_get d k)
         = Spec.last_value k
             (map (Spec.entry Sample.max_str_digits)
                ["lr=0.01"; "epochs = 100"; "lr=1e-3"]).
Proof.
  exact (parse_params_key_value Sample.max_str_digits Sample.Json.decode
           " lr=0.01, epochs = 100 ,, lr=1e-3 " eq_refl).
Defined.

(** C4 as stated fails: on a JSON object that holds 1200 arrays inside one
    another the decoder raises [RecursionError], which [parse_params] does
    not catch: no mapping is returned and what is raised is no
    [ValueError]. *)
Lemma deep_json_not_decoded :
  PyStr.startswith (PyStr.strip Sample.deep_json) "{" = true
  /\ PyStr.endswith (PyStr.strip Sample.deep_json) "}" = true
  /\ parse_params Sample.max_str_digits Sample.Json.decode (Some Sample.deep_json)
     = Raise (mkExn RecursionError
                "maximum recursion depth exceeded while decoding a JSON array from a unicode string")
  /\ ~ Spec.json_result_as_stated
        (parse_params Sample.max_str_digits Sample.Json.decode
           (Some Sample.deep_json)).
Proof.
  assert (H : parse_params Sample.max_str_digits Sample.Json.decode
                (Some Sample.deep_json)
              = Raise (mkExn RecursionError
                         "maximum recursion depth exceeded while decoding a JSON array from a unicode string"))
    by (vm_compute; reflexivity).
  split; [vm_compute; reflexivity|]. split; [vm_compute; reflexivity|].
  split; [exact H|].
  rewrite H. intros [[d Hd]|[e [He Hcls]]]; [discriminate|].
  injection He as <-. discriminate Hcls.
Qed.

Lemma parse_params_json_witness :
  parse_params Sample.max_str_digits Sample.Json.decode (Some Sample.json_example)
  = Ok [("lr", VInt 1); ("epochs", VList [VInt 100; VBool true])]
  /\ parse_params Sample.max_str_digits Sample.Json.decode (Some " {lr=1} ")
     = Raise (mkExn ValueError "Invalid JSON format: Expecting value").
Proof.
  split.
  - exact (proj1 (parse_params_json Sample.max_str_digits Sample.Json.decode
                    Sample.json_example eq_refl eq_refl)).
  - exact (proj1 (parse_params_json Sample.max_str_digits Sample.Json.decode
                    " {lr=1} " eq_refl eq_refl)).
Defined.

(** ** The handlers *)

Section HandlerFacts.

Variable int_max_str_digits : nat.
Variable json_decode : string -> pydict + json_failure.
Variable pathlib : PathLib.
Variable runner : JupyterRunner (Path pathlib).

Local Abbreviation ev := (event (Path pathlib)).
Local Abbreviation run_file_handler :=
  (handle_run_file int_max_str_digits json_decode pathlib runner).
Local Abbreviation run_handler := (handle_run pathlib runner).
Local Abbreviation params_of args :=
  (parse_params int_max_str_digits json_decode (rf_params args)).
Local Abbreviation the_path args := (path_of pathlib (rf_filepath args)).

Import Outcome.

Lemma for_each_print (lines : list string) :
  IO.for_each lines (fun line => print pathlib Stderr line)
  = (map (fun line => EvWrite Stderr (line ++ nl)) lines, Ok tt).
Proof.
  induction lines as [|line r IH]; [reflexivity|].
  cbn [IO.for_each map]. rewrite IH. reflexivity.
Qed.

(** What the handlers do with a result. *)
Lemma report_result (r : ExecutionResult) :
  report pathlib r
  = ((output_events r ++ (if has_error r then error_events r else []))%list,
     Ok (if has_error r then 1%Z else 0%Z)).
Proof.
  unfold report, output_events, error_events.
  destruct (PyStr.bool_of_str (stdout r)), (PyStr.bool_of_str (stderr r)),
    (has_error r); cbn [IO.when IO.bind IO.ret print_end IO.emit app];
    try reflexivity;
    destruct (error_traceback r) as [|line lines] eqn:Htb;
    cbn [IO.when IO.bind IO.ret print IO.emit app map];
    try reflexivity;
    rewrite for_each_print; cbn [IO.bind IO.ret app map];
    rewrite app_nil_r; reflexivity.
Qed.

(** An exception of the session is caught by one of the two handlers. *)
Lemma transport_caught (tr : list ev) (e : exn) :
  IO.try_ (tr, Raise e) (transport_handlers pathlib)
  = ((tr ++ [EvWrite Stderr (failure_line e)])%list, Ok 1%Z).
Proof.
  unfold IO.try_, transport_handlers, failure_line. cbn [find fst snd].
  destruct (isinstance e PyrunJupyterError); reflexivity.
Qed.

(** The three ways a session can go. *)
Lemma session_enter_fails cfg (body : io ev Z) e :
  runner_enter runner cfg = Some e ->
  IO.try_ (with_runner pathlib runner cfg body) (transport_handlers pathlib)
  = ([EvEnter cfg; EvWrite Stderr (failure_line e)], Ok 1%Z).
Proof.
  intros He. unfold with_runner. rewrite He.
  cbn [IO.bind IO.emit IO.raise app]. apply transport_caught.
Qed.

Lemma session_call_fails cfg (call : ev) (e : exn) :
  runner_enter runner cfg = None ->
  IO.try_
    (with_runner pathlib runner cfg
       (IO.bind (IO.call call (Raise e)) (report pathlib)))
    (transport_handlers pathlib)
  = ([EvEnter cfg; call; EvExit; EvWrite Stderr (failure_line e)], Ok 1%Z).
Proof.
  intros He. unfold with_runner. rewrite He.
  cbn [IO.bind IO.emit IO.call IO.ensure app]. apply transport_caught.
Qed.

Lemma session_returns cfg (call : ev) (r : ExecutionResult) :
  runner_enter runner cfg = None ->
  IO.try_
    (with_runner pathlib runner cfg
       (IO.bind (IO.call call (Ok r)) (report pathlib)))
    (transport_handlers pathlib)
  = ((EvEnter cfg :: call :: output_events r
        ++ (if has_error r then error_events r else []) ++ [EvExit])%list,
     Ok (if has_error r then 1%Z else 0%Z)).
Proof.
  intros He. unfold with_runner. rewrite He.
  unfold IO.call. cbn [IO.bind IO.emit]. rewrite report_result.
  cbn [IO.ensure IO.try_ app]. now rewrite <- app_assoc.
Qed.

(** [handle_run_file] once the file and the parameters are accepted. *)
Lemma handle_run_file_session args d :
  path_exists pathlib (the_path args) = Ok true ->
  path_suffix pathlib (the_path args) = ".py" ->
  params_of args = Ok d ->
  run_file_handler args
  = IO.try_
      (with_runner pathlib runner (config_of args)
         (IO.bind
            (IO.call
               (EvRunFile (path_of pathlib (rf_filepath args)) (mapping_or_none d)
                  (rf_timeout args))
               (runner_run_file runner (config_of args)
                  (path_of pathlib (rf_filepath args)) (mapping_or_none d)
                  (rf_timeout args)))
            (report pathlib)))
      (transport_handlers pathlib).
Proof.
  intros Hex Hsuf Hparse. unfold handle_run_file.
  rewrite Hex, Hsuf, Hparse. cbn [negb String.eqb].
  replace (".py" =? ".py") with true by reflexivity. cbn [negb].
  destruct d; reflexivity.
Qed.

Lemma wrong_suffix_refused (args : RunFileArgs) :
  path_exists pathlib (the_path args) = Ok true ->
  path_suffix pathlib (the_path args) <> ".py" ->
  run_file_handler args
  = ([EvWrite Stderr
        (("Error: Expected .py file, got: " ++ path_suffix pathlib (the_path args))
         ++ nl)],
     Ok 1%Z).
Proof.
  intros Hex Hsuf. unfold handle_run_file. rewrite Hex.
  apply String.eqb_neq in Hsuf. rewrite Hsuf. reflexivity.
Qed.

Lemma run_file_ok_iff (args : RunFileArgs) :
  run_file_ok int_max_str_digits json_decode pathlib runner args = true
  <-> run_file_succeeds int_max_str_digits json_decode pathlib runner args.
Proof.
  unfold run_file_ok, run_file_succeeds. cbv zeta. split.
  - destruct (path_exists pathlib (the_path args)) as [[|]|e0];
      try discriminate.
    rewrite andb_true_iff, String.eqb_eq.
    intros [Hsuf H]. split; [reflexivity|]. split; [exact Hsuf|].
    destruct (params_of args) as [d|e]; [|discriminate].
    destruct (runner_enter runner (config_of args)); [discriminate|].
    destruct (runner_run_file _ _ _ _ _) as [r|e] eqn:Hrun; [|discriminate].
    exists d, r. apply negb_true_iff in H. auto.
  - intros (Hex & Hsuf & d & r & Hparse & Henter & Hrun & Herr).
    rewrite Hex, Hsuf, Hparse, Henter, Hrun, Herr. reflexivity.
Qed.

Lemma missing_file_refused (args : RunFileArgs) :
  path_exists pathlib (the_path args) = Ok false ->
  run_file_handler args
  = ([EvWrite Stderr
        (("Error: File not found: " ++ path_str pathlib (the_path args)) ++ nl)],
     Ok 1%Z).
Proof. intros Hex. unfold handle_run_file. rewrite Hex. reflexivity. Qed.

(** An exception of [exists()] leaves the handler: the test is outside
    every [try]. *)
Lemma exists_raises (args : RunFileArgs) (e : exn) :
  path_exists pathlib (the_path args) = Raise e ->
  run_file_handler args = ([], Raise e).
Proof. intros Hex. unfold handle_run_file. rewrite Hex. reflexivity. Qed.

(** An exception of [parse_params]: a [ValueError] is reported, any other
    leaves the handler. *)
Lemma bad_params_refused (args : RunFileArgs) (e : exn) :
  path_exists pathlib (the_path args) = Ok true ->
  path_suffix pathlib (the_path args) = ".py" ->
  params_of args = Raise e ->
  run_file_handler args
  = if isinstance e ValueError
    then ([EvWrite Stderr (("Error: Invalid params format: " ++ exn_str e) ++ nl)],
          Ok 1%Z)
    else ([], Raise e).
Proof.
  intros Hex Hsuf Hparse. unfold handle_run_file.
  rewrite Hex, Hsuf, Hparse. cbn [negb].
  replace (".py" =? ".py") with true by reflexivity. cbn [negb].
  destruct (isinstance e ValueError); reflexivity.
Qed.

(** The outcome of [handle_run_file]: it returns 0 when the execution
    succeeded and 1 when it did not, or it raises, without having written
    anything, what [exists()] raised or what [parse_params] raised other
    than a [ValueError]. *)
Lemma handle_run_file_outcome (args : RunFileArgs) :
  (exists tr,
      run_file_handler args
      = (tr, Ok (if run_file_ok int_max_str_digits json_decode pathlib
                      runner args
                 then 0%Z else 1%Z)))
  \/ (run_file_ok int_max_str_digits json_decode pathlib runner args = false
      /\ exists e,
           run_file_handler args = ([], Raise e)
           /\ (path_exists pathlib (the_path args) = Raise e
               \/ (path_exists pathlib (the_path args) = Ok true
                   /\ path_suffix pathlib (the_path args) = ".py"
                   /\ params_of args = Raise e
                   /\ isinstance e ValueError = false))).
Proof.
  unfold run_file_ok. cbv zeta.
  destruct (path_exists pathlib (the_path args)) as [[|]|e] eqn:Hex.
  3:{ right. split; [reflexivity|]. exists e.
      split; [exact (exists_raises args e Hex) | now left]. }
  2:{ left. rewrite (missing_file_refused args Hex). eexists. reflexivity. }
  destruct (String.eqb_spec (path_suffix pathlib (the_path args)) ".py")
    as [Hsuf|Hsuf].
  2:{ left. rewrite (wrong_suffix_refused args Hex Hsuf). eexists. reflexivity. }
  cbn [andb].
  destruct (params_of args) as [d|e] eqn:Hparse.
  2:{ rewrite (bad_params_refused args e Hex Hsuf Hparse).
      destruct (isinstance e ValueError) eqn:Hcls.
      - left. eexists. reflexivity.
      - right. split; [reflexivity|]. exists e.
        split; [reflexivity|]. right. auto. }
  left. rewrite (handle_run_file_session args d Hex Hsuf Hparse).
  destruct (runner_enter runner (config_of args)) as [e|] eqn:Henter.
  { rewrite (session_enter_fails _ _ e Henter). eexists. reflexivity. }
  destruct (runner_run_file _ _ _ _ _) as [r|e].
  - rewrite (session_returns _ _ r Henter).
    destruct (has_error r); eexists; reflexivity.
  - rewrite (session_call_fails _ _ e Henter). eexists. reflexivity.
Qed.

(** C9. An existing file whose suffix is not ".py" is refused: one line
    on standard error, exit code 1, and nothing else happens, whatever
    the parameter string is: no runner is created and nothing is sent. *)
Theorem handle_run_file_wrong_suffix (args : RunFileArgs) :
  path_exists pathlib (the_path args) = Ok true ->
  path_suffix pathlib (the_path args) <> ".py" ->
  run_file_handler args
  = ([EvWrite Stderr
        (("Error: Expected .py file, got: " ++ path_suffix pathlib (the_path args))
         ++ nl)],
     Ok 1%Z).
Proof. exact (wrong_suffix_refused args). Qed.

(** C7. Without [--params], [parse_params] returns the empty dict.  When
    the parameters parse to a dict [d] and the session is entered,
    [run_file] is called exactly once, with no mapping ([None]) if [d] is
    empty and with [d] otherwise; in particular it is called with [None]
    when [--params] is absent. *)
Theorem handle_run_file_params (args : RunFileArgs) :
  parse_params int_max_str_digits json_decode None = Ok []
  /\ (forall d : pydict,
        path_exists pathlib (the_path args) = Ok true ->
        path_suffix pathlib (the_path args) = ".py" ->
        params_of args = Ok d ->
        runner_enter runner (config_of args) = None ->
        run_file_calls (fst (run_file_handler args))
        = [(the_path args,
            match d with [] => None | _ :: _ => Some d end,
            rf_timeout args)])
  /\ (rf_params args = None ->
      path_exists pathlib (the_path args) = Ok true ->
      path_suffix pathlib (the_path args) = ".py" ->
      runner_enter runner (config_of args) = None ->
      run_file_calls (fst (run_file_handler args))
      = [(the_path args, None, rf_timeout args)]).
Proof.
  assert (Hcalls : forall d : pydict,
             path_exists pathlib (the_path args) = Ok true ->
             path_suffix pathlib (the_path args) = ".py" ->
             params_of args = Ok d ->
             runner_enter runner (config_of args) = None ->
             run_file_calls (fst (run_file_handler args))
             = [(the_path args, mapping_or_none d, rf_timeout args)]).
  { intros d Hex Hsuf Hparse Henter.
    rewrite (handle_run_file_session args d Hex Hsuf Hparse).
    destruct (runner_run_file runner (config_of args) (the_path args)
                (mapping_or_none d) (rf_timeout args)) as [r|e].
    - rewrite (session_returns _ _ r Henter).
      cbn [fst run_file_calls flat_map app].
      f_equal. unfold output_events, error_events.
      rewrite !flat_map_app.
      destruct (PyStr.bool_of_str (stdout r)), (PyStr.bool_of_str (stderr r)),
        (has_error r); cbn [flat_map app]; try reflexivity;
        induction (error_traceback r); cbn [map flat_map app] in *; auto.
    - rewrite (session_call_fails _ _ e Henter). reflexivity. }
  split; [reflexivity|]. split.
  - intros d. exact (Hcalls d).
  - intros Hnone Hex Hsuf Henter.
    apply (Hcalls [] Hex Hsuf); [|exact Henter].
    rewrite Hnone. reflexivity.
Qed.

(** C5. When the result of [run] or [run_file] has [has_error] set, the
    handler does not raise: it writes the result's standard output and
    standard error, then the error and the traceback lines to standard
    error, leaves the session and returns 1. *)
Theorem remote_error_reported :
  (forall (args : RunArgs) (r : ExecutionResult),
      let cfg := mkConfig (r_url args) (r_token args) (r_kernel args) in
      runner_enter runner cfg = None ->
      runner_run runner cfg (r_code args) (r_timeout args) = Ok r ->
      has_error r = true ->
      run_handler args
      = ((EvEnter cfg :: EvRun (r_code args) (r_timeout args)
            :: output_events r ++ error_events r ++ [EvExit])%list,
         Ok 1%Z))
  /\
  (forall (args : RunFileArgs) (d : pydict) (r : ExecutionResult),
      path_exists pathlib (the_path args) = Ok true ->
      path_suffix pathlib (the_path args) = ".py" ->
      params_of args = Ok d ->
      runner_enter runner (config_of args) = None ->
      runner_run_file runner (config_of args) (the_path args)
        (mapping_or_none d) (rf_timeout args) = Ok r ->
      has_error r = true ->
      run_file_handler args
      = ((EvEnter (config_of args)
            :: EvRunFile (the_path args) (mapping_or_none d) (rf_timeout args)
            :: output_events r ++ error_events r ++ [EvExit])%list,
         Ok 1%Z)).
Proof.
  split.
  - intros args r cfg Henter Hrun Herr. unfold handle_run. fold cfg.
    rewrite Hrun, (session_returns _ _ r Henter), Herr. reflexivity.
  - intros args d r Hex Hsuf Hparse Henter Hrun Herr.
    rewrite (handle_run_file_session args d Hex Hsuf Hparse), Hrun,
      (session_returns _ _ r Henter), Herr. reflexivity.
Qed.

(** C1. The [run-file] command always ends with exit status 0 or 1.
    [main] passes on what [handle_run_file] does.  The status is 0, and
    the handler returns 0, exactly when the remote execution took place
    and reported no error.  The status is 1 on every failure.  The handler
    returns 1 when the file does not exist, when the parameter string is
    rejected with a [ValueError], when entering the session or [run_file]
    raises, and when the result has [has_error]; a wrong suffix gives 1 as
    well.  The handler itself raises in two cases only, before it has
    written anything: [exists()] raised, or [parse_params] raised what is
    no [ValueError]; the exception then ends the process, with status 1. *)
Theorem handle_run_file_exit_code (args : RunFileArgs) :
  exists tr outcome,
    main int_max_str_digits json_decode pathlib runner (RunFileCommand args)
    = (tr, outcome)
    /\ run_file_handler args = (tr, outcome)
    /\ (exit_status outcome = 0 \/ exit_status outcome = 1)%Z
    /\ (exit_status outcome = 0%Z
        <-> run_file_succeeds int_max_str_digits json_decode pathlib
              runner args)
    /\ (outcome = Ok 0%Z
        <-> run_file_succeeds int_max_str_digits json_decode pathlib
              runner args)
    /\ (path_exists pathlib (the_path args) = Ok false -> outcome = Ok 1%Z)
    /\ (path_suffix pathlib (the_path args) <> ".py" ->
        exit_status outcome = 1%Z)
    /\ ((exists e, params_of args = Raise e) -> exit_status outcome = 1%Z)
    /\ (forall e,
           path_exists pathlib (the_path args) = Ok true ->
           path_suffix pathlib (the_path args) = ".py" ->
           params_of args = Raise e ->
           isinstance e ValueError = true ->
           outcome = Ok 1%Z)
    /\ (forall d e,
           path_exists pathlib (the_path args) = Ok true ->
           path_suffix pathlib (the_path args) = ".py" ->
           params_of args = Ok d ->
           runner_enter runner (config_of args) = Some e ->
           outcome = Ok 1%Z)
    /\ (forall d e,
           path_exists pathlib (the_path args) = Ok true ->
           path_suffix pathlib (the_path args) = ".py" ->
           params_of args = Ok d ->
           runner_run_file runner (config_of args) (the_path args)
             (mapping_or_none d) (rf_timeout args) = Raise e ->
           outcome = Ok 1%Z)
    /\ (forall d r,
           path_exists pathlib (the_path args) = Ok true ->
           path_suffix pathlib (the_path args) = ".py" ->
           params_of args = Ok d ->
           runner_run_file runner (config_of args) (the_path args)
             (mapping_or_none d) (rf_timeout args) = Ok r ->
           has_error r = true ->
           outcome = Ok 1%Z)
    /\ (forall e,
           outcome = Raise e ->
           tr = []
           /\ (path_exists pathlib (the_path args) = Raise e
               \/ (path_exists pathlib (the_path args) = Ok true
                   /\ path_suffix pathlib (the_path args) = ".py"
                   /\ params_of args = Raise e
                   /\ isinstance e ValueError = false))).
Proof.
  pose proof (run_file_ok_iff args) as Hiff.
  destruct (handle_run_file_outcome args) as [[tr Htr]|[Hok (e & Htr & Hwhy)]].
  - destruct (run_file_ok int_max_str_digits json_decode pathlib
                runner args) eqn:Hok.
    + (* success *)
      pose proof (proj1 Hiff eq_refl)
        as (Hex & Hsuf & d & r & Hparse & Henter & Hrun & Herr).
      exists tr, (Ok 0%Z). cbn [exit_status].
      split; [exact Htr|]. split; [exact Htr|]. split; [now left|].
      split; [split; [intros _; apply Hiff; reflexivity | reflexivity]|].
      split; [split; [intros _; apply Hiff; reflexivity | reflexivity]|].
      repeat match goal with |- _ /\ _ => split end.
      * congruence.
      * congruence.
      * intros [e He]. congruence.
      * intros e _ _ He _. congruence.
      * intros d' e _ _ Hd' He. congruence.
      * intros d' e _ _ Hd' He. congruence.
      * intros d' r' _ _ Hd' Hr' Herr'. congruence.
      * discriminate.
    + (* a failure that is reported *)
      assert (Hno : ~ run_file_succeeds int_max_str_digits json_decode
                        pathlib runner args)
        by (intros H; apply Hiff in H; discriminate).
      exists tr, (Ok 1%Z). cbn [exit_status].
      split; [exact Htr|]. split; [exact Htr|]. split; [now right|].
      split; [split; [discriminate | intros H; now destruct Hno]|].
      split; [split; [discriminate | intros H; now destruct Hno]|].
      repeat match goal with |- _ /\ _ => split end;
        try (intros; reflexivity).
      discriminate.
  - (* an exception leaves the handler *)
    assert (Hno : ~ run_file_succeeds int_max_str_digits json_decode
                      pathlib runner args)
      by (intros H; apply Hiff in H; congruence).
    exists [], (Raise e). cbn [exit_status].
    split; [exact Htr|]. split; [exact Htr|]. split; [now right|].
    split; [split; [discriminate | intros H; now destruct Hno]|].
    split; [split; [discriminate | intros H; now destruct Hno]|].
    repeat match goal with |- _ /\ _ => split end.
    + intros Hex. destruct Hwhy as [H|(H & _)]; congruence.
    + reflexivity.
    + reflexivity.
    + intros e' Hex Hsuf Hparse Hcls.
      destruct Hwhy as [H|(_ & _ & H & Hcls')]; congruence.
    + intros d e' Hex Hsuf Hparse _.
      destruct Hwhy as [H|(_ & _ & H & _)]; congruence.
    + intros d e' Hex Hsuf Hparse _.
      destruct Hwhy as [H|(_ & _ & H & _)]; congruence.
    + intros d r Hex Hsuf Hparse _ _.
      destruct Hwhy as [H|(_ & _ & H & _)]; congruence.
    + intros e' He'. injection He' as <-. split; [reflexivity | exact Hwhy].
Qed.

(** C6, amended.  Both subcommands declare [--url], [--token],
    [--kernel] and [--timeout]; [--params] is declared by [run-file]
    only.  Each handler hands the URL, the token and the kernel name to
    the runner; [run] receives the code and the timeout, [run_file] the
    path, the parameter mapping and the timeout. *)
Theorem cli_options :
  (forall option,
      In option ["--url"; "--token"; "--kernel"; "--timeout"] ->
      declares create_parser "run" option = true
      /\ declares create_parser "run-file" option = true)
  /\ declares create_parser "run-file" "--params" = true
  /\ declares create_parser "run" "--params" = false
  /\ (forall args : RunArgs,
        let cfg := mkConfig (r_url args) (r_token args) (r_kernel args) in
        runner_enter runner cfg = None ->
        exists tr r,
          run_handler args
          = (EvEnter cfg :: EvRun (r_code args) (r_timeout args) :: tr, r))
  /\ (forall (args : RunFileArgs) (d : pydict),
        path_exists pathlib (the_path args) = Ok true ->
        path_suffix pathlib (the_path args) = ".py" ->
        params_of args = Ok d ->
        runner_enter runner (config_of args) = None ->
        exists tr r,
          run_file_handler args
          = (EvEnter (config_of args)
               :: EvRunFile (the_path args) (mapping_or_none d) (rf_timeout args)
               :: tr, r)).
Proof.
  split; [|split; [reflexivity|split; [reflexivity|split]]].
  - intros option [<-|[<-|[<-|[<-|[]]]]]; split; reflexivity.
  - intros args cfg Henter. unfold handle_run. fold cfg.
    destruct (runner_run runner cfg (r_code args) (r_timeout args))
      as [r|e].
    + rewrite (session_returns _ _ r Henter). eexists. eexists. reflexivity.
    + rewrite (session_call_fails _ _ e Henter). eexists. eexists. reflexivity.
  - intros args d Hex Hsuf Hparse Henter.
    rewrite (handle_run_file_session args d Hex Hsuf Hparse).
    destruct (runner_run_file _ _ _ _ _) as [r|e].
    + rewrite (session_returns _ _ r Henter). eexists. eexists. reflexivity.
    + rewrite (session_call_fails _ _ e Henter). eexists. eexists. reflexivity.
Qed.

End HandlerFacts.

(** C6 as stated fails: the [run] subcommand declares no [--params]. *)
Lemma run_declares_no_params : ~ Outcome.exposes_all create_parser.
Proof.
  intros H.
  specialize (H "run" "--params" (or_introl eq_refl)).
  cbn in H. specialize (H (or_intror (or_intror (or_intror (or_intror (or_introl eq_refl)))))).
  discriminate H.
Qed.

(** *** The handlers on the sample host *)

Lemma handle_run_file_exit_code_witness :
  exists tr,
    handle_run_file Sample.max_str_digits Sample.Json.decode Sample.pathlib
      Sample.runner (Sample.run_file_args "missing.py" None)
    = (tr, Ok 1%Z).
Proof.
  destruct (handle_run_file_exit_code Sample.max_str_digits Sample.Json.decode
              Sample.pathlib Sample.runner (Sample.run_file_args "missing.py" None))
    as (tr & outcome & _ & Heq & _ & _ & _ & Hmissing & _).
  exists tr. rewrite Heq, (Hmissing eq_refl). reflexivity.
Defined.

Lemma handle_run_file_wrong_suffix_witness :
  handle_run_file Sample.max_str_digits Sample.Json.decode Sample.pathlib
    Sample.runner (Sample.run_file_args "notes.txt" (Some "not a pair"))
  = ([EvWrite Stderr ("Error: Expected .py file, got: .txt" ++ nl)], Ok 1%Z).
Proof.
  apply (handle_run_file_wrong_suffix Sample.max_str_digits Sample.Json.decode
           Sample.pathlib Sample.runner
           (Sample.run_file_args "notes.txt" (Some "not a pair"))).
  - reflexivity.
  - discriminate.
Defined.

Lemma handle_run_file_params_witness :
  Outcome.run_file_calls
    (fst (handle_run_file Sample.max_str_digits Sample.Json.decode Sample.pathlib
            Sample.runner (Sample.run_file_args "train.py" (Some " , "))))
  = [("train.py", None, Sample.sixty)].
Proof.
  apply (proj1 (proj2 (handle_run_file_params Sample.max_str_digits
                         Sample.Json.decode Sample.pathlib Sample.runner
                         (Sample.run_file_args "train.py" (Some " , ")))) []);
    reflexivity.
Defined.

Lemma remote_error_reported_witness :
  handle_run Sample.pathlib Sample.runner (Sample.run_args "1/0")
  = ([EvEnter (mkConfig "http://localhost:8888" (Some "xxx") "python3");
      EvRun "1/0" Sample.sixty;
      EvWrite Stdout "starting";
      EvWrite Stderr ((nl ++ "Error: division by zero") ++ nl);
      EvWrite Stderr ("Traceback (most recent call last):" ++ nl);
      EvWrite Stderr ("ZeroDivisionError: division by zero" ++ nl);
      EvExit],
     Ok 1%Z).
Proof.
  apply (proj1 (remote_error_reported Sample.max_str_digits Sample.Json.decode
                  Sample.pathlib Sample.runner)
           (Sample.run_args "1/0") Sample.zero_division);
    reflexivity.
Defined.

Lemma cli_options_witness :
  declares create_parser "run" "--timeout" = true
  /\ declares create_parser "run-file" "--timeout" = true.
Proof.
  apply (proj1 (cli_options Sample.max_str_digits Sample.Json.decode
                  Sample.pathlib Sample.runner) "--timeout").
  cbn. auto.
Defined.

(** * Further properties *)

(** ** The handlers, case by case *)

Section HandlerCases.

Variable int_max_str_digits : nat.
Variable json_decode : string -> pydict + json_failure.
Variable pathlib : PathLib.
Variable runner : JupyterRunner (Path pathlib).

Local Abbreviation ev := (event (Path pathlib)).
Local Abbreviation run_file_handler :=
  (handle_run_file int_max_str_digits json_decode pathlib runner).
Local Abbreviation run_handler := (handle_run pathlib runner).
Local Abbreviation params_of args :=
  (parse_params int_max_str_digits json_decode (rf_params args)).
Local Abbreviation the_path args := (path_of pathlib (rf_filepath args)).
Local Abbreviation run_file_result args d :=
  (runner_run_file runner (Outcome.config_of args) (the_path args)
     (Outcome.mapping_or_none d) (rf_timeout args)).
Local Abbreviation run_result args :=
  (runner_run runner (Trace.run_config args) (r_code args) (r_timeout args)).

Import Outcome Trace.

Lemma handle_run_session (args : RunArgs) :
  run_handler args
  = IO.try_
      (with_runner pathlib runner (run_config args)
         (IO.bind (IO.call (EvRun (r_code args) (r_timeout args)) (run_result args))
            (report pathlib)))
      (transport_handlers pathlib).
Proof. reflexivity. Qed.

Lemma handle_run_outcome (args : RunArgs) :
  exists tr code,
    run_handler args = (tr, Ok code)
    /\ (code = 0 \/ code = 1)%Z
    /\ (code = 0%Z <-> run_succeeds pathlib runner args).
Proof.
  rewrite handle_run_session. unfold run_succeeds.
  destruct (runner_enter runner (run_config args)) as [e|] eqn:Henter.
  { rewrite (session_enter_fails pathlib runner _ _ e Henter).
    eexists. exists 1%Z. split; [reflexivity|]. split; [now right|].
    split; [discriminate|]. intros [H _]. discriminate. }
  destruct (run_result args) as [r|e] eqn:Hrun.
  - rewrite (session_returns pathlib runner _ _ r Henter).
    destruct (has_error r) eqn:Herr.
    + eexists. exists 1%Z. split; [reflexivity|]. split; [now right|].
      split; [discriminate|]. intros (_ & r' & Hr' & Hno).
      injection Hr' as <-. congruence.
    + eexists. exists 0%Z. split; [reflexivity|]. split; [now left|].
      split; [|reflexivity]. intros _. split; [reflexivity|].
      exists r. split; [reflexivity | exact Herr].
  - rewrite (session_call_fails pathlib runner _ _ e Henter).
    eexists. exists 1%Z. split; [reflexivity|]. split; [now right|].
    split; [discriminate|]. intros (_ & r' & Hr' & _). discriminate.
Qed.

(** X1. [handle_run] never raises and returns 0 or 1; it returns 0
    exactly when the session was entered and [run] returned a result
    without [has_error]. *)
Theorem handle_run_exit_code (args : RunArgs) :
  exists tr code,
    run_handler args = (tr, Ok code)
    /\ (code = 0 \/ code = 1)%Z
    /\ (code = 0%Z <-> run_succeeds pathlib runner args).
Proof. exact (handle_run_outcome args). Qed.

(** X2. A file that does not exist is refused with one line on standard
    error that names the path, and exit code 1; the suffix and the
    parameter string are not looked at and no runner is created. *)
Theorem handle_run_file_missing_file (args : RunFileArgs) :
  path_exists pathlib (the_path args) = Ok false ->
  run_file_handler args
  = ([EvWrite Stderr
        (("Error: File not found: " ++ path_str pathlib (the_path args)) ++ nl)],
     Ok 1%Z).
Proof.
  exact (missing_file_refused int_max_str_digits json_decode pathlib runner args).
Qed.

(** X3. For an existing [.py] file, a parameter string on which
    [parse_params] raises a [ValueError] is reported with one line on
    standard error, "Error: Invalid params format: " followed by the text
    of the exception, and exit code 1.  An exception that is no
    [ValueError], which only the JSON decoder can raise, is not caught:
    the handler raises it and writes nothing.  Either way no runner is
    created. *)
Theorem handle_run_file_bad_params (args : RunFileArgs) (e : exn) :
  path_exists pathlib (the_path args) = Ok true ->
  path_suffix pathlib (the_path args) = ".py" ->
  params_of args = Raise e ->
  run_file_handler args
  = (if isinstance e ValueError
     then ([EvWrite Stderr (("Error: Invalid params format: " ++ exn_str e) ++ nl)],
           Ok 1%Z)
     else ([], Raise e))
  /\ (isinstance e ValueError = false ->
      exists s,
        rf_params args = Some s
        /\ json_decode (PyStr.strip s) = inr (OtherFailure e)).
Proof.
  intros Hex Hsuf Hparse. split.
  - exact (bad_params_refused int_max_str_digits json_decode pathlib runner
             args e Hex Hsuf Hparse).
  - intros Hcls.
    destruct (parse_params_raises _ _ _ _ Hparse)
      as [Hval|(_ & s & Hs & _ & Hdec)].
    + unfold isinstance in Hcls. rewrite Hval in Hcls. discriminate.
    + exists s. auto.
Qed.

(** X4. When the session cannot be entered, both handlers write one line
    for the exception, "Error: ..." for a [PyrunJupyterError] and
    "Unexpected error: ..." for any other exception, and return 1;
    neither [run] nor [run_file] is called and there is no session to
    leave. *)
Theorem session_not_entered :
  (forall (args : RunArgs) (e : exn),
      runner_enter runner (run_config args) = Some e ->
      run_handler args
      = ([EvEnter (run_config args); EvWrite Stderr (failure_line e)], Ok 1%Z))
  /\
  (forall (args : RunFileArgs) (d : pydict) (e : exn),
      path_exists pathlib (the_path args) = Ok true ->
      path_suffix pathlib (the_path args) = ".py" ->
      params_of args = Ok d ->
      runner_enter runner (config_of args) = Some e ->
      run_file_handler args
      = ([EvEnter (config_of args); EvWrite Stderr (failure_line e)], Ok 1%Z)).
Proof.
  split.
  - intros args e Henter. rewrite handle_run_session.
    apply (session_enter_fails pathlib runner _ _ e Henter).
  - intros args d e Hex Hsuf Hparse Henter.
    rewrite (handle_run_file_session _ _ _ _ args d Hex Hsuf Hparse).
    apply (session_enter_fails pathlib runner _ _ e Henter).
Qed.

(** X5. When [run] or [run_file] raises inside the session, the session
    is left first, then one line for the exception is written to standard
    error, "Error: ..." for a [PyrunJupyterError] and "Unexpected
    error: ..." otherwise, and the handler returns 1. *)
Theorem call_raises :
  (forall (args : RunArgs) (e : exn),
      runner_enter runner (run_config args) = None ->
      run_result args = Raise e ->
      run_handler args
      = ([EvEnter (run_config args); EvRun (r_code args) (r_timeout args);
          EvExit; EvWrite Stderr (failure_line e)],
         Ok 1%Z))
  /\
  (forall (args : RunFileArgs) (d : pydict) (e : exn),
      path_exists pathlib (the_path args) = Ok true ->
      path_suffix pathlib (the_path args) = ".py" ->
      params_of args = Ok d ->
      runner_enter runner (config_of args) = None ->
      run_file_result args d = Raise e ->
      run_file_handler args
      = ([EvEnter (config_of args);
          EvRunFile (the_path args) (mapping_or_none d) (rf_timeout args);
          EvExit; EvWrite Stderr (failure_line e)],
         Ok 1%Z)).
Proof.
  split.
  - intros args e Henter Hrun. rewrite handle_run_session, Hrun.
    apply (session_call_fails pathlib runner _ _ e Henter).
  - intros args d e Hex Hsuf Hparse Henter Hrun.
    rewrite (handle_run_file_session _ _ _ _ args d Hex Hsuf Hparse), Hrun.
    apply (session_call_fails pathlib runner _ _ e Henter).
Qed.

(** X6. When the result has no error, the handler writes the result's
    standard output to standard output and its standard error to standard
    error, each only if it is not empty and without adding a line end,
    writes nothing else, leaves the session and returns 0. *)
Theorem success_output :
  (forall (args : RunArgs) (r : ExecutionResult),
      runner_enter runner (run_config args) = None ->
      run_result args = Ok r ->
      has_error r = false ->
      run_handler args
      = ((EvEnter (run_config args) :: EvRun (r_code args) (r_timeout args)
            :: output_events r ++ [EvExit])%list,
         Ok 0%Z))
  /\
  (forall (args : RunFileArgs) (d : pydict) (r : ExecutionResult),
      path_exists pathlib (the_path args) = Ok true ->
      path_suffix pathlib (the_path args) = ".py" ->
      params_of args = Ok d ->
      runner_enter runner (config_of args) = None ->
      run_file_result args d = Ok r ->
      has_error r = false ->
      run_file_handler args
      = ((EvEnter (config_of args)
            :: EvRunFile (the_path args) (mapping_or_none d) (rf_timeout args)
            :: output_events r ++ [EvExit])%list,
         Ok 0%Z)).
Proof.
  split.
  - intros args r Henter Hrun Herr.
    rewrite handle_run_session, Hrun,
      (session_returns pathlib runner _ _ r Henter), Herr.
    reflexivity.
  - intros args d r Hex Hsuf Hparse Henter Hrun Herr.
    rewrite (handle_run_file_session _ _ _ _ args d Hex Hsuf Hparse), Hrun,
      (session_returns pathlib runner _ _ r Henter), Herr.
    reflexivity.
Qed.

Lemma session_events_output (r : ExecutionResult) :
  session_events (output_events r : list ev) = [].
Proof.
  unfold output_events.
  destruct (PyStr.bool_of_str (stdout r)), (PyStr.bool_of_str (stderr r));
    reflexivity.
Qed.

Lemma session_events_error (r : ExecutionResult) :
  session_events (error_events r : list ev) = [].
Proof.
  unfold error_events. cbn [session_events filter is_session_event].
  induction (error_traceback r); [reflexivity | assumption].
Qed.

Lemma session_events_report (r : ExecutionResult) :
  session_events
    (output_events r ++ (if has_error r then error_events r else []) ++ [EvExit])%list
  = [EvExit : ev].
Proof.
  unfold session_events. rewrite !filter_app.
  fold (session_events (output_events r : list ev)).
  rewrite session_events_output.
  destruct (has_error r); [|reflexivity].
  fold (session_events (error_events r : list ev)).
  rewrite session_events_error. reflexivity.
Qed.

Lemma written_app fd (a b : list ev) :
  written fd (a ++ b)%list = written fd a ++ written fd b.
Proof.
  induction a as [|x a IH]; [reflexivity|].
  destruct x; cbn [app written]; try exact IH.
  destruct (same_stream fd fd0); [|exact IH].
  rewrite IH. clear. induction text; cbn; congruence.
Qed.

Lemma written_stdout_output (r : ExecutionResult) :
  written Stdout (output_events r : list ev) = stdout r.
Proof.
  unfold output_events.
  destruct (PyStr.bool_of_str (stdout r)) eqn:Hout,
    (PyStr.bool_of_str (stderr r)); cbn;
    try (apply PyStrFacts.bool_of_str_false in Hout; now rewrite Hout);
    clear; induction (stdout r); cbn; congruence.
Qed.

Lemma written_stdout_error (r : ExecutionResult) :
  written Stdout (error_events r : list ev) = "".
Proof.
  unfold error_events. cbn [written same_stream].
  induction (error_traceback r); [reflexivity | assumption].
Qed.

Lemma written_stdout_report (r : ExecutionResult) :
  written Stdout
    (output_events r ++ (if has_error r then error_events r else [])
     ++ [EvExit : ev])%list
  = stdout r.
Proof.
  rewrite !written_app, written_stdout_output.
  destruct (has_error r); [rewrite written_stdout_error|];
    cbn; clear; induction (stdout r); cbn; congruence.
Qed.

(** X7. Each handler opens at most one session, makes exactly one call
    in a session it has entered, and leaves every session it has entered:
    the runner sees nothing ([run-file] refused the file or the
    parameters), or a failed attempt to enter, or enter, one call, exit. *)
Theorem session_discipline :
  (forall args : RunArgs,
      session_events (fst (run_handler args))
      = EvEnter (run_config args)
        :: match runner_enter runner (run_config args) with
           | Some _ => []
           | None => [EvRun (r_code args) (r_timeout args); EvExit]
           end)
  /\
  (forall args : RunFileArgs,
      session_events (fst (run_file_handler args))
      = match path_exists pathlib (the_path args),
              String.eqb (path_suffix pathlib (the_path args)) ".py",
              params_of args with
        | Ok true, true, Ok d =>
            EvEnter (config_of args)
            :: match runner_enter runner (config_of args) with
               | Some _ => []
               | None =>
                   [EvRunFile (the_path args) (mapping_or_none d) (rf_timeout args);
                    EvExit]
               end
        | _, _, _ => []
        end).
Proof.
  split.
  - intros args. rewrite handle_run_session.
    destruct (runner_enter runner (run_config args)) as [e|] eqn:Henter.
    { now rewrite (session_enter_fails pathlib runner _ _ e Henter). }
    destruct (run_result args) as [r|e].
    + rewrite (session_returns pathlib runner _ _ r Henter).
      cbn [fst session_events filter is_session_event].
      fold (session_events
              (output_events r ++ (if has_error r then error_events r else [])
               ++ [EvExit : ev])%list).
      now rewrite session_events_report.
    + now rewrite (session_call_fails pathlib runner _ _ e Henter).
  - intros args.
    destruct (path_exists pathlib (the_path args)) as [[|]|e] eqn:Hex.
    3:{ now rewrite (exists_raises _ _ _ _ args e Hex). }
    2:{ now rewrite (missing_file_refused _ _ _ _ args Hex). }
    destruct (String.eqb_spec (path_suffix pathlib (the_path args)) ".py")
      as [Hsuf|Hsuf].
    2:{ now rewrite (wrong_suffix_refused _ _ _ _ args Hex Hsuf). }
    destruct (params_of args) as [d|e] eqn:Hparse.
    2:{ rewrite (bad_params_refused _ _ _ _ args e Hex Hsuf Hparse).
        now destruct (isinstance e ValueError). }
    rewrite (handle_run_file_session _ _ _ _ args d Hex Hsuf Hparse).
    destruct (runner_enter runner (config_of args)) as [e|] eqn:Henter.
    { now rewrite (session_enter_fails pathlib runner _ _ e Henter). }
    destruct (run_file_result args d) as [r|e].
    + rewrite (session_returns pathlib runner _ _ r Henter).
      cbn [fst session_events filter is_session_event].
      fold (session_events
              (output_events r ++ (if has_error r then error_events r else [])
               ++ [EvExit : ev])%list).
      now rewrite session_events_report.
    + now rewrite (session_call_fails pathlib runner _ _ e Henter).
Qed.

(** X8. What a handler writes to standard output is the standard output
    of the result, and nothing when there is no result: every message of
    the handler itself goes to standard error. *)
Theorem stdout_is_remote_stdout :
  (forall args : RunArgs,
      written Stdout (fst (run_handler args))
      = match runner_enter runner (run_config args), run_result args with
        | None, Ok r => stdout r
        | _, _ => ""
        end)
  /\
  (forall args : RunFileArgs,
      written Stdout (fst (run_file_handler args))
      = match path_exists pathlib (the_path args),
              String.eqb (path_suffix pathlib (the_path args)) ".py",
              params_of args with
        | Ok true, true, Ok d =>
            match runner_enter runner (config_of args), run_file_result args d with
            | None, Ok r => stdout r
            | _, _ => ""
            end
        | _, _, _ => ""
        end).
Proof.
  split.
  - intros args. rewrite handle_run_session.
    destruct (runner_enter runner (run_config args)) as [e|] eqn:Henter.
    { now rewrite (session_enter_fails pathlib runner _ _ e Henter). }
    destruct (run_result args) as [r|e].
    + rewrite (session_returns pathlib runner _ _ r Henter).
      cbn [fst written]. apply written_stdout_report.
    + now rewrite (session_call_fails pathlib runner _ _ e Henter).
  - intros args.
    destruct (path_exists pathlib (the_path args)) as [[|]|e] eqn:Hex.
    3:{ now rewrite (exists_raises _ _ _ _ args e Hex). }
    2:{ now rewrite (missing_file_refused _ _ _ _ args Hex). }
    destruct (String.eqb_spec (path_suffix pathlib (the_path args)) ".py")
      as [Hsuf|Hsuf].
    2:{ now rewrite (wrong_suffix_refused _ _ _ _ args Hex Hsuf). }
    destruct (params_of args) as [d|e] eqn:Hparse.
    2:{ rewrite (bad_params_refused _ _ _ _ args e Hex Hsuf Hparse).
        now destruct (isinstance e ValueError). }
    rewrite (handle_run_file_session _ _ _ _ args d Hex Hsuf Hparse).
    destruct (runner_enter runner (config_of args)) as [e|] eqn:Henter.
    { now rewrite (session_enter_fails pathlib runner _ _ e Henter). }
    destruct (run_file_result args d) as [r|e].
    + rewrite (session_returns pathlib runner _ _ r Henter).
      cbn [fst written]. apply written_stdout_report.
    + now rewrite (session_call_fails pathlib runner _ _ e Henter).
Qed.

(** X9. [main], from the parsed arguments on, ends the process with
    exit status 0 or 1.  Without a subcommand it prints the help and
    returns 1; with [run] it returns 0 or 1 and never raises; with
    [run-file] it returns 0 or 1, or it raises, before anything is
    written, what [exists()] raised or what [parse_params] raised other
    than a [ValueError]. *)
Theorem main_exit_code (parsed_args : Namespace) :
  exists tr outcome,
    main int_max_str_digits json_decode pathlib runner parsed_args = (tr, outcome)
    /\ (exit_status outcome = 0 \/ exit_status outcome = 1)%Z
    /\ (parsed_args = NoCommand -> tr = [EvHelp] /\ outcome = Ok 1%Z)
    /\ (forall args, parsed_args = RunCommand args ->
          outcome = Ok 0%Z \/ outcome = Ok 1%Z)
    /\ (forall args, parsed_args = RunFileCommand args ->
          outcome = Ok 0%Z \/ outcome = Ok 1%Z
          \/ exists e,
               outcome = Raise e /\ tr = []
               /\ (path_exists pathlib (the_path args) = Raise e
                   \/ (path_exists pathlib (the_path args) = Ok true
                       /\ path_suffix pathlib (the_path args) = ".py"
                       /\ params_of args = Raise e
                       /\ isinstance e ValueError = false))).
Proof.
  destruct parsed_args as [|args|args]; cbn [main].
  - exists [EvHelp], (Ok 1%Z). cbn [exit_status].
    repeat match goal with |- _ /\ _ => split end;
      auto; intros; discriminate.
  - destruct (handle_run_file_outcome int_max_str_digits json_decode pathlib
                runner args) as [[tr Htr]|[_ (e & Htr & Hwhy)]].
    + exists tr. eexists. split; [exact Htr|]. cbn [exit_status].
      destruct (run_file_ok int_max_str_digits json_decode pathlib runner args);
        repeat match goal with |- _ /\ _ => split end;
        auto; intros; discriminate.
    + exists [], (Raise e). split; [exact Htr|]. cbn [exit_status].
      repeat match goal with |- _ /\ _ => split end;
        auto; try (intros; discriminate).
      intros args' Heq. injection Heq as <-.
      right. right. exists e. auto.
  - destruct (handle_run_outcome args) as (tr & code & Htr & Hcode & _).
    exists tr, (Ok code). split; [exact Htr|]. cbn [exit_status].
    repeat match goal with |- _ /\ _ => split end;
      auto; try (intros; discriminate).
    intros _ _. destruct Hcode as [-> | ->]; auto.
Qed.

End HandlerCases.

(** ** White space *)

Module StripFacts.
Import PyStr.

Section With.
Variable p : ascii -> bool.

Lemma rstrip_cons c r :
  rstrip_with p (String c r)
  = match rstrip_with p r with
    | EmptyString => if p c then EmptyString else String c EmptyString
    | String d r' => String c (String d r')
    end.
Proof. reflexivity. Qed.

Lemma rstrip_idem s : rstrip_with p (rstrip_with p s) = rstrip_with p s.
Proof.
  induction s as [|c r IH]; [reflexivity|].
  rewrite rstrip_cons. destruct (rstrip_with p r) as [|d r'] eqn:Hr.
  - destruct (p c) eqn:Hc; [reflexivity|]. cbn. now rewrite Hc.
  - rewrite rstrip_cons, IH. reflexivity.
Qed.

Lemma lstrip_idem s : lstrip_with p (lstrip_with p s) = lstrip_with p s.
Proof.
  induction s as [|c r IH]; [reflexivity|].
  cbn [lstrip_with]. destruct (p c) eqn:Hc; [exact IH|].
  cbn [lstrip_with]. now rewrite Hc.
Qed.

(** Stripping on the left keeps a right end that is already clean. *)
Lemma rstrip_lstrip s :
  rstrip_with p s = s -> rstrip_with p (lstrip_with p s) = lstrip_with p s.
Proof.
  induction s as [|c r IH]; [reflexivity|].
  intros Hs. cbn [lstrip_with]. destruct (p c) eqn:Hc; [|exact Hs].
  apply IH. cbn [rstrip_with] in Hs.
  destruct (rstrip_with p r) as [|d r'].
  - rewrite Hc in Hs. discriminate.
  - now injection Hs.
Qed.

Lemma strip_idem s : strip_with p (strip_with p s) = strip_with p s.
Proof.
  unfold strip_with.
  rewrite (rstrip_lstrip _ (rstrip_idem s)). apply lstrip_idem.
Qed.

Lemma rstrip_length s : String.length (rstrip_with p s) <= String.length s.
Proof.
  induction s as [|c r IH]; [apply le_n|].
  cbn [rstrip_with]. destruct (rstrip_with p r) as [|d r'].
  - destruct (p c); cbn; lia.
  - cbn [String.length] in *. lia.
Qed.

Lemma lstrip_length s : String.length (lstrip_with p s) <= String.length s.
Proof.
  induction s as [|c r IH]; [apply le_n|].
  cbn [lstrip_with]. destruct (p c); cbn [String.length]; lia.
Qed.

Lemma rstrip_full s :
  String.length (rstrip_with p s) = String.length s -> rstrip_with p s = s.
Proof.
  induction s as [|c r IH]; [reflexivity|].
  cbn [rstrip_with]. pose proof (rstrip_length r) as Hle.
  destruct (rstrip_with p r) as [|d r'] eqn:Hr.
  - destruct (p c); cbn [String.length]; [discriminate|].
    intros H. destruct r; [reflexivity | discriminate].
  - cbn [String.length] in *. intros H. f_equal. apply IH. lia.
Qed.

Lemma lstrip_full s :
  String.length (lstrip_with p s) = String.length s -> lstrip_with p s = s.
Proof.
  destruct s as [|c r]; [reflexivity|].
  cbn [lstrip_with]. destruct (p c); [|reflexivity].
  pose proof (lstrip_length r). cbn [String.length]. lia.
Qed.

(** A string that stripping leaves alone is clean at both ends. *)
Lemma strip_fixed s :
  strip_with p s = s -> lstrip_with p s = s /\ rstrip_with p s = s.
Proof.
  unfold strip_with. intros H.
  pose proof (lstrip_length (rstrip_with p s)) as H1.
  pose proof (rstrip_length s) as H2.
  assert (Hr : rstrip_with p s = s).
  { apply rstrip_full. rewrite H in H1. lia. }
  split; [|exact Hr]. now rewrite Hr in H.
Qed.

Lemma lstrip_app a b :
  lstrip_with p a = a -> a <> "" -> lstrip_with p (a ++ b) = a ++ b.
Proof.
  destruct a as [|c r]; [congruence|]. intros H _.
  cbn [append lstrip_with] in *. destruct (p c); [|reflexivity].
  pose proof (lstrip_length r) as Hle. rewrite H in Hle.
  cbn [String.length] in Hle. lia.
Qed.

Lemma rstrip_app a b :
  rstrip_with p b = b -> b <> "" -> rstrip_with p (a ++ b) = a ++ b.
Proof.
  intros Hb Hne. induction a as [|c r IH]; [exact Hb|].
  cbn [append rstrip_with]. rewrite IH.
  destruct (r ++ b) eqn:Hrb; [|reflexivity].
  destruct r; [cbn in Hrb; congruence | discriminate].
Qed.

End With.

Lemma strip_strip s : strip (strip s) = strip s.
Proof. apply strip_idem. Qed.

End StripFacts.

Section Whitespace.

Variable int_max_str_digits : nat.
Variable json_decode : string -> pydict + json_failure.

(** X10. White space around the parameter string never matters:
    [parse_params] gives the same result, a dict or an exception, for a
    string and for the string stripped. *)
Theorem parse_params_ignores_outer_space (params_str : string) :
  parse_params int_max_str_digits json_decode (Some params_str)
  = parse_params int_max_str_digits json_decode (Some (PyStr.strip params_str)).
Proof.
  unfold parse_params.
  destruct (PyStr.bool_of_str params_str) eqn:Hs; cbn [negb].
  - destruct (PyStr.bool_of_str (PyStr.strip params_str)) eqn:Hs'; cbn [negb].
    + rewrite !StripFacts.strip_strip. reflexivity.
    + apply PyStrFacts.bool_of_str_false in Hs'. rewrite Hs'. reflexivity.
  - apply PyStrFacts.bool_of_str_false in Hs. subst. reflexivity.
Qed.

(** X11. What [parse_params] raises is never a [JSONDecodeError], and
    it is a [ValueError], which the [except ValueError] clause of
    [handle_run_file] catches, with one exception: on a string of the
    JSON form, what the decoder itself raises other than a
    [JSONDecodeError] is raised unchanged.  In particular a string that is
    not of the JSON form, or no string at all, raises nothing but
    [ValueError]. *)
Theorem parse_params_raises_value_error (params_str : option string) (e : exn) :
  parse_params int_max_str_digits json_decode params_str = Raise e ->
  isinstance e JSONDecodeError = false
  /\ (exn_cls e = ValueError
      \/ exists s,
           params_str = Some s
           /\ PyStr.startswith (PyStr.strip s) "{"
                && PyStr.endswith (PyStr.strip s) "}" = true
           /\ json_decode (PyStr.strip s) = inr (OtherFailure e))
  /\ (match params_str with
      | Some s =>
          PyStr.startswith (PyStr.strip s) "{"
            && PyStr.endswith (PyStr.strip s) "}" = false
      | None => True
      end ->
      exn_cls e = ValueError).
Proof.
  intros He.
  destruct (parse_params_raises int_max_str_digits json_decode params_str e He)
    as [Hcls|(Hcls & s & Hs & Hshape & Hdec)].
  - split; [unfold isinstance; now rewrite Hcls|]. split; [now left|].
    intros _. exact Hcls.
  - split; [exact Hcls|]. split; [right; exists s; auto|].
    subst params_str. intros Hno. congruence.
Qed.

End Whitespace.

(** ** Quoted values and numerals *)

Module QuotedFacts.
Import PyStr Spec Render.

Lemma endswith_app s x : endswith (x ++ s) s = true.
Proof.
  induction x as [|c r IH]; cbn [append].
  - destruct s; cbn [endswith]; rewrite String.eqb_refl; reflexivity.
  - cbn [endswith]. rewrite IH. apply orb_true_r.
Qed.

Lemma but_last_app x c : but_last (x ++ String c "") = x.
Proof.
  induction x as [|d r IH]; [reflexivity|].
  cbn [append but_last]. rewrite IH.
  destruct r; reflexivity.
Qed.

Lemma quoted_strip q r :
  is_quote q ->
  strip_with isspace_numeric (String q (r ++ String q ""))
  = String q (r ++ String q "").
Proof.
  intros Hq. unfold strip_with.
  change (String q (r ++ String q "")) with (String q r ++ String q "").
  rewrite StripFacts.rstrip_app.
  - destruct Hq as [->| ->]; reflexivity.
  - destruct Hq as [->| ->]; reflexivity.
  - discriminate.
Qed.

Lemma quoted_not_int lim q r :
  is_quote q ->
  Numeral.py_int lim (String q (r ++ String q "")) = Raise Numeral.invalid_int.
Proof.
  intros Hq. unfold Numeral.py_int. rewrite (quoted_strip q r Hq).
  destruct Hq as [->| ->]; reflexivity.
Qed.

Lemma quoted_not_float q r :
  is_quote q ->
  Numeral.py_float (String q (r ++ String q "")) = Raise Numeral.invalid_float.
Proof.
  intros Hq. unfold Numeral.py_float. rewrite (quoted_strip q r Hq).
  destruct Hq as [->| ->]; reflexivity.
Qed.

Lemma quoted_sliced q r :
  is_quote q -> sliced_if_quoted (String q (r ++ String q "")) = r.
Proof.
  intros Hq. unfold sliced_if_quoted.
  rewrite PyStrFacts.slice_inner, but_last_app.
  change (String q (r ++ String q "")) with (String q r ++ String q "").
  unfold dq, sq.
  destruct Hq as [->| ->].
  - rewrite (proj2 (PyStrFacts.startswith_char "034"
                      (String "034" r ++ String "034" ""))
               (ex_intro _ (r ++ String "034" "") eq_refl)).
    rewrite (endswith_app (String "034" "")). reflexivity.
  - destruct (startswith (String "'" r ++ "'") (String "034" "")) eqn:E.
    { apply PyStrFacts.startswith_char in E. destruct E as [r' E]. discriminate. }
    rewrite (proj2 (PyStrFacts.startswith_char "'" (String "'" r ++ "'"))
               (ex_intro _ (r ++ "'") eq_refl)).
    rewrite (endswith_app "'"). reflexivity.
Qed.

End QuotedFacts.

Module RenderFacts.
Import PyStr Numeral Render.
Import DecimalString.NilEmpty.

Lemma more_digits_uint u :
  more_digits (string_of_uint u) = (digits_of_uint u, "").
Proof.
  induction u; [reflexivity|..];
    cbn [string_of_uint digits_of_uint];
    change (more_digits (String ?c ?r))
      with (let (ds, rest) := more_digits r in (digit_value c :: ds, rest))
      in |- *; rewrite IHu; reflexivity.
Qed.

Lemma digitpart_uint u :
  u <> Decimal.Nil ->
  digitpart (string_of_uint u) = Some (digits_of_uint u, "").
Proof.
  destruct u; [congruence|..]; intros _;
    cbn [string_of_uint digits_of_uint];
    change (digitpart (String ?c ?r))
      with (let (ds, rest) := more_digits r in Some (digit_value c :: ds, rest));
    rewrite more_digits_uint; reflexivity.
Qed.

Lemma fold_digits_acc u acc :
  fold_left (fun a d => (10 * a + N.of_nat d)%N) (digits_of_uint u) (Npos acc)
  = Npos (Pos.of_uint_acc u acc).
Proof.
  revert acc. induction u; intros acc; [reflexivity|..];
    cbn [digits_of_uint fold_left Pos.of_uint_acc];
    rewrite <- IHu; f_equal; lia.
Qed.

Lemma fold_digits u : N_of_digits (digits_of_uint u) = Pos.of_uint u.
Proof.
  unfold N_of_digits.
  induction u; [reflexivity|..]; cbn [digits_of_uint fold_left Pos.of_uint];
    [exact IHu|..]; rewrite <- fold_digits_acc; f_equal.
Qed.

Lemma length_digits u :
  List.length (digits_of_uint u) = String.length (string_of_uint u).
Proof.
  induction u; [reflexivity|..];
    cbn [digits_of_uint string_of_uint List.length String.length];
    now rewrite IHu.
Qed.

Lemma rstrip_uint u :
  rstrip_with isspace_numeric (string_of_uint u) = string_of_uint u.
Proof.
  induction u; [reflexivity|..]; cbn [string_of_uint];
    rewrite StripFacts.rstrip_cons, IHu;
    destruct (string_of_uint u); reflexivity.
Qed.

Lemma strip_uint u :
  strip_with isspace_numeric (string_of_uint u) = string_of_uint u.
Proof.
  unfold strip_with. rewrite rstrip_uint. destruct u; reflexivity.
Qed.

Lemma strip_minus_uint u :
  strip_with isspace_numeric (String "-" (string_of_uint u))
  = String "-" (string_of_uint u).
Proof.
  unfold strip_with. rewrite StripFacts.rstrip_cons, rstrip_uint.
  destruct (string_of_uint u); reflexivity.
Qed.

Lemma read_sign_uint u :
  read_sign (string_of_uint u) = (false, string_of_uint u).
Proof. destruct u; reflexivity. Qed.

Lemma py_int_uint lim u :
  u <> Decimal.Nil ->
  exceeds_limit lim (String.length (string_of_uint u)) = false ->
  py_int lim (string_of_uint u) = Ok (Z.of_N (Pos.of_uint u))
  /\ py_int lim (String "-" (string_of_uint u)) = Ok (- Z.of_N (Pos.of_uint u))%Z.
Proof.
  intros Hu Hlim. rewrite <- length_digits in Hlim. unfold py_int. split.
  - rewrite strip_uint, read_sign_uint, (digitpart_uint u Hu), Hlim, fold_digits.
    reflexivity.
  - rewrite strip_minus_uint. cbn [read_sign]. change (Ascii.eqb "-" "-") with true.
    cbv iota. rewrite (digitpart_uint u Hu), Hlim, fold_digits. reflexivity.
Qed.

(** A numeral is none of the words for null and the booleans. *)
Lemma uint_not_keyword u :
  u <> Decimal.Nil ->
  (String.eqb (lower (string_of_uint u)) "none"
   || String.eqb (lower (string_of_uint u)) "null") = false
  /\ String.eqb (lower (string_of_uint u)) "true" = false
  /\ String.eqb (lower (string_of_uint u)) "false" = false.
Proof. destruct u; [congruence|..]; intros _; repeat split. Qed.

Lemma minus_not_keyword r :
  (String.eqb (lower (String "-" r)) "none"
   || String.eqb (lower (String "-" r)) "null") = false
  /\ String.eqb (lower (String "-" r)) "true" = false
  /\ String.eqb (lower (String "-" r)) "false" = false.
Proof. repeat split. Qed.

(** [convert_value] reads the decimal text of an integer back. *)
Lemma converted_str_int lim z :
  exceeds_limit lim (String.length (str_int (Z.abs z))) = false ->
  Spec.converted lim (str_int z) = VInt z.
Proof.
  unfold str_int, Spec.converted, Spec.coerce_with.
  destruct z as [|p|p]; cbn [Z.abs Z.to_int string_of_int]; intros Hlim.
  - reflexivity.
  - pose proof (DecimalPos.Unsigned.to_uint_nonnil p) as Hu.
    destruct (uint_not_keyword _ Hu) as (-> & -> & ->).
    rewrite (proj1 (py_int_uint lim _ Hu Hlim)).
    now rewrite DecimalPos.Unsigned.of_to.
  - pose proof (DecimalPos.Unsigned.to_uint_nonnil p) as Hu.
    destruct (minus_not_keyword (string_of_uint (Pos.to_uint p))) as (-> & -> & ->).
    rewrite (proj2 (py_int_uint lim _ Hu Hlim)).
    now rewrite DecimalPos.Unsigned.of_to.
Qed.

End RenderFacts.

Section Texts.

Variable int_max_str_digits : nat.

(** X12. Quoting forces a string: whatever text stands between a pair
    of double quotes or a pair of single quotes, [convert_value] returns
    that text as a string, also when the text alone would be read as
    null, a bool or a number. *)
Theorem convert_value_quoted (q : ascii) (text : string) :
  Render.is_quote q ->
  convert_value int_max_str_digits (String q (text ++ String q ""))
  = Ok (VStr text).
Proof.
  intros Hq. rewrite convert_value_branches. f_equal.
  unfold Spec.converted, Spec.coerce_with.
  rewrite (QuotedFacts.quoted_not_int _ q text Hq),
    (QuotedFacts.quoted_not_float q text Hq),
    (QuotedFacts.quoted_sliced q text Hq).
  destruct Hq as [->| ->]; reflexivity.
Qed.

(** X13. [convert_value] reads back what Python prints for [None], a
    bool or an int: the text [str(v)] of such a value [v] is converted to
    [v] itself, provided the interpreter's limit on the digits of an int
    is not exceeded. *)
Theorem convert_value_reads_back (v : pyvalue) (text : string) :
  Render.str_scalar v = Some text ->
  Numeral.exceeds_limit int_max_str_digits (Render.digit_count v) = false ->
  convert_value int_max_str_digits text = Ok v.
Proof.
  intros Htext Hlim. rewrite convert_value_branches. f_equal.
  destruct v as [|[|]|z| | | |]; try discriminate;
    injection Htext as <-; try reflexivity.
  apply RenderFacts.converted_str_int. exact Hlim.
Qed.

End Texts.

(** ** What the key=value branch can return *)

Module CharFacts.
Import PyStr Spec.

Local Abbreviation has c s := (contains (String c "") s).

Lemma has_cons sep c r : has sep (String c r) = Ascii.eqb c sep || has sep r.
Proof. apply SplitFacts.contains_char. Qed.

Lemma has_app sep a b : has sep (a ++ b) = has sep a || has sep b.
Proof.
  induction a as [|c r IH].
  - cbn [append]. destruct b; reflexivity.
  - cbn [append]. rewrite !has_cons, IH. apply orb_assoc.
Qed.

Lemma has_lstrip p sep s : has sep s = false -> has sep (lstrip_with p s) = false.
Proof.
  induction s as [|c r IH]; [reflexivity|].
  intros H. cbn [lstrip_with]. destruct (p c); [|exact H].
  rewrite has_cons in H. apply orb_false_iff in H. now apply IH.
Qed.

Lemma has_rstrip p sep s : has sep s = false -> has sep (rstrip_with p s) = false.
Proof.
  induction s as [|c r IH]; [reflexivity|].
  rewrite has_cons. intros H. apply orb_false_iff in H. destruct H as [Hc Hr].
  rewrite StripFacts.rstrip_cons. specialize (IH Hr).
  destruct (rstrip_with p r) as [|d r'].
  - destruct (p c); [reflexivity|]. rewrite has_cons, Hc. reflexivity.
  - rewrite has_cons, Hc. exact IH.
Qed.

Lemma has_strip sep s : has sep s = false -> has sep (strip s) = false.
Proof. intros H. apply has_lstrip, has_rstrip, H. Qed.

Lemma has_before_first sep s : has sep (before_first sep s) = false.
Proof.
  induction s as [|c r IH]; [reflexivity|].
  cbn [before_first]. destruct (Ascii.eqb c sep) eqn:Hc; [reflexivity|].
  now rewrite has_cons, Hc.
Qed.

Lemma has_before_first_other sep c s :
  has c s = false -> has c (before_first sep s) = false.
Proof.
  induction s as [|d r IH]; [reflexivity|].
  rewrite has_cons. intros H. apply orb_false_iff in H. destruct H as [Hd Hr].
  cbn [before_first]. destruct (Ascii.eqb d sep); [reflexivity|].
  rewrite has_cons, Hd. now apply IH.
Qed.

Lemma has_after_first sep c s :
  has c s = false -> has c (after_first sep s) = false.
Proof.
  induction s as [|d r IH]; [reflexivity|].
  rewrite has_cons. intros H. apply orb_false_iff in H. destruct H as [Hd Hr].
  cbn [after_first]. destruct (Ascii.eqb d sep); [exact Hr | now apply IH].
Qed.

Lemma has_but_last c s : has c s = false -> has c (but_last s) = false.
Proof.
  induction s as [|d r IH]; [reflexivity|].
  rewrite has_cons. intros H. apply orb_false_iff in H. destruct H as [Hd Hr].
  cbn [but_last]. destruct r as [|e r']; [reflexivity|].
  rewrite has_cons, Hd. now apply IH.
Qed.

Lemma has_sliced c s : has c s = false -> has c (sliced_if_quoted s) = false.
Proof.
  intros H. unfold sliced_if_quoted. destruct (_ || _); [|exact H].
  destruct s as [|d r]; [reflexivity|].
  rewrite PyStrFacts.slice_inner. apply has_but_last.
  rewrite has_cons in H. now apply orb_false_iff in H.
Qed.

(** No piece of a split contains the separator. *)
Lemma has_split sep s x : In x (split sep s) -> has sep x = false.
Proof.
  revert x. induction s as [|c r IH]; intros x.
  - intros [<-|[]]. reflexivity.
  - cbn [split]. destruct (Ascii.eqb c sep) eqn:Hc.
    + intros [<-|Hin]; [reflexivity | now apply IH].
    + destruct (split sep r) as [|h t] eqn:Hs.
      * intros [<-|[]]. now rewrite has_cons, Hc.
      * intros [<-|Hin].
        -- rewrite has_cons, Hc. apply IH. now left.
        -- apply IH. now right.
Qed.

End CharFacts.

Module DictMembers.
Import Spec.

Lemma In_dict_set d k0 v0 k v :
  In (k, v) (dict_set d k0 v0) -> In (k, v) d \/ (k = k0 /\ v = v0).
Proof.
  induction d as [|[k' v'] r IH]; cbn [dict_set].
  - intros [H|[]]. right. now injection H as <- <-.
  - destruct (String.eqb_spec k' k0) as [->|Hne].
    + intros [H|H]; [right; now injection H as <- <- | left; now right].
    + intros [H|H]; [left; now left|].
      destruct (IH H) as [Hin|Heq]; [left; now right | now right].
Qed.

Lemma In_fold {A : Type} (key : A -> string) (val : A -> pyvalue) l acc k v :
  In (k, v) (fold_left (store key val) l acc) ->
  In (k, v) acc \/ exists a, In a l /\ k = key a /\ v = val a.
Proof.
  revert acc. induction l as [|a r IH]; intros acc; [now left|].
  cbn [fold_left]. intros H. destruct (IH _ H) as [Hin|(b & Hb & Hk & Hv)].
  - unfold store in Hin. destruct (In_dict_set _ _ _ _ _ Hin) as [Hacc|[Hk Hv]].
    + now left.
    + right. exists a. split; [now left | now split].
  - right. exists b. split; [now right | now split].
Qed.

Lemma converted_scalar lim s : is_scalar (converted lim s) = true.
Proof.
  unfold converted, coerce_with.
  repeat match goal with
         | |- context [if ?b then _ else _] => destruct b
         | |- context [match ?r with Ok _ => _ | Raise _ => _ end] => destruct r
         end; reflexivity.
Qed.

Lemma converted_text lim s t :
  converted lim s = VStr t -> t = sliced_if_quoted s.
Proof.
  unfold converted, coerce_with.
  repeat match goal with
         | |- context [if ?b then _ else _] => destruct b
         | |- context [match ?r with Ok _ => _ | Raise _ => _ end] => destruct r
         end; try discriminate.
  intros H. now injection H.
Qed.

End DictMembers.

Section KeyValueInvariants.

Variable int_max_str_digits : nat.
Variable json_decode : string -> pydict + json_failure.

(** X14. In a dict returned for a key=value string, every key is
    stripped and contains neither a comma nor "=", every value is
    [None], a bool, an int, a float or a str, and no str value contains
    a comma: quotes do not protect a comma. *)
Theorem key_value_invariants (params_str : string) (d : pydict) :
  PyStr.startswith (PyStr.strip params_str) "{"
    && PyStr.endswith (PyStr.strip params_str) "}" = false ->
  parse_params int_max_str_digits json_decode (Some params_str) = Ok d ->
  forall k v,
    In (k, v) d ->
    PyStr.strip k = k
    /\ PyStr.contains "," k = false
    /\ PyStr.contains "=" k = false
    /\ Spec.is_scalar v = true
    /\ (forall t, v = VStr t -> PyStr.contains "," t = false).
Proof.
  intros Hjson Hparse k v Hin. unfold parse_params in Hparse.
  destruct (PyStr.bool_of_str params_str); cbn [negb] in Hparse.
  2:{ injection Hparse as <-. destruct Hin. }
  rewrite Hjson, parse_pairs_fold in Hparse. cbv zeta in Hparse.
  destruct (find _ _); [discriminate|]. injection Hparse as <-.
  apply DictMembers.In_fold in Hin. destruct Hin as [[]|(p & Hp & -> & ->)].
  apply filter_In in Hp. destruct Hp as [Hp _].
  apply in_map_iff in Hp. destruct Hp as (x & <- & Hx).
  assert (Hcomma : PyStr.contains "," (PyStr.strip x) = false).
  { apply CharFacts.has_strip. exact (CharFacts.has_split _ _ _ Hx). }
  unfold Spec.key_of, Spec.value_of.
  split; [apply StripFacts.strip_strip|].
  split; [apply CharFacts.has_strip, CharFacts.has_before_first_other, Hcomma|].
  split; [apply CharFacts.has_strip, CharFacts.has_before_first|].
  split; [apply DictMembers.converted_scalar|].
  intros t Ht. apply DictMembers.converted_text in Ht. subst t.
  apply CharFacts.has_sliced, CharFacts.has_strip, CharFacts.has_after_first, Hcomma.
Qed.

End KeyValueInvariants.

(** ** Reading back a list of pairs *)

Module JoinFacts.
Import PyStr Spec Render.

Local Abbreviation has c s := (contains (String c "") s).

Lemma split_whole sep a : has sep a = false -> split sep a = [a].
Proof.
  induction a as [|c r IH]; [reflexivity|].
  rewrite CharFacts.has_cons. intros H. apply orb_false_iff in H.
  destruct H as [Hc Hr]. cbn [split]. rewrite Hc, (IH Hr). reflexivity.
Qed.

Lemma split_app sep a b :
  has sep a = false -> split sep (a ++ String sep b) = a :: split sep b.
Proof.
  induction a as [|c r IH]; intros H.
  - cbn [append split]. now rewrite Ascii.eqb_refl.
  - rewrite CharFacts.has_cons in H. apply orb_false_iff in H.
    destruct H as [Hc Hr]. cbn [append split]. rewrite Hc, (IH Hr). reflexivity.
Qed.

Lemma join_cons p q rest :
  join "," (p :: q :: rest) = p ++ String "," (join "," (q :: rest)).
Proof. reflexivity. Qed.

(** Splitting at the commas undoes joining with commas. *)
Lemma split_join l :
  l <> [] -> (forall p, In p l -> has "," p = false) ->
  split "," (join "," l) = l.
Proof.
  induction l as [|p rest IH]; [congruence|]. intros _ Hl.
  destruct rest as [|q rest'].
  - apply split_whole, Hl. now left.
  - rewrite join_cons, split_app by (apply Hl; now left).
    f_equal. apply IH; [discriminate|]. intros x Hx. apply Hl. now right.
Qed.

Lemma before_first_app sep k v :
  has sep k = false -> before_first sep (k ++ String sep v) = k.
Proof.
  induction k as [|c r IH]; intros H.
  - cbn [append before_first]. now rewrite Ascii.eqb_refl.
  - rewrite CharFacts.has_cons in H. apply orb_false_iff in H.
    destruct H as [Hc Hr]. cbn [append before_first]. rewrite Hc, (IH Hr).
    reflexivity.
Qed.

Lemma after_first_app sep k v :
  has sep k = false -> after_first sep (k ++ String sep v) = v.
Proof.
  induction k as [|c r IH]; intros H.
  - cbn [append after_first]. now rewrite Ascii.eqb_refl.
  - rewrite CharFacts.has_cons in H. apply orb_false_iff in H.
    destruct H as [Hc Hr]. cbn [append after_first]. rewrite Hc. now apply IH.
Qed.

(** A pair of stripped texts is a stripped piece. *)
Lemma pair_text_stripped k v :
  strip k = k -> strip v = v -> strip (k ++ String "=" v) = k ++ String "=" v.
Proof.
  intros Hk Hv.
  apply StripFacts.strip_fixed in Hk. destruct Hk as [Hk _].
  apply StripFacts.strip_fixed in Hv. destruct Hv as [_ Hv].
  unfold strip, strip_with.
  assert (Hr : rstrip_with isspace (String "=" v) = String "=" v).
  { rewrite StripFacts.rstrip_cons, Hv. destruct v; reflexivity. }
  rewrite (StripFacts.rstrip_app isspace k _ Hr) by discriminate.
  destruct k as [|c r]; [reflexivity|].
  apply StripFacts.lstrip_app; [exact Hk | discriminate].
Qed.

Lemma join_nonempty p rest : p <> "" -> join "," (p :: rest) <> "".
Proof.
  intros Hp. destruct rest; [exact Hp|].
  rewrite join_cons. destruct p; [congruence | discriminate].
Qed.

(** Joining stripped, non-empty pieces gives a stripped text. *)
Lemma join_stripped l :
  (forall p, In p l -> strip p = p /\ p <> "") ->
  strip (join "," l) = join "," l.
Proof.
  intros Hl. destruct l as [|p rest]; [reflexivity|].
  assert (Hright : forall l', l' <> [] ->
             (forall x, In x l' -> strip x = x /\ x <> "") ->
             rstrip_with isspace (join "," l') = join "," l').
  { induction l' as [|x l' IH]; [congruence|]. intros _ Hl'.
    destruct l' as [|y l''].
    - apply StripFacts.strip_fixed, Hl'. now left.
    - rewrite join_cons.
      apply StripFacts.rstrip_app.
      + rewrite StripFacts.rstrip_cons, IH.
        * destruct (join "," (y :: l'')) eqn:E; [|reflexivity].
          exfalso. revert E. apply join_nonempty.
          apply (Hl' y). right. now left.
        * discriminate.
        * intros z Hz. apply Hl'. now right.
      + discriminate. }
  unfold strip, strip_with. rewrite Hright; [|discriminate|exact Hl].
  destruct (Hl p (or_introl eq_refl)) as [Hp Hne].
  apply StripFacts.strip_fixed in Hp. destruct Hp as [Hp _].
  destruct rest as [|q rest']; [exact Hp|].
  rewrite join_cons. now apply StripFacts.lstrip_app.
Qed.

Lemma dict_set_fresh d k v :
  ~ In k (map fst d) -> dict_set d k v = (d ++ [(k, v)])%list.
Proof.
  induction d as [|[k' v'] r IH]; [reflexivity|].
  cbn [map fst In dict_set app]. intros H.
  destruct (String.eqb_spec k' k) as [->|Hne]; [exfalso; apply H; now left|].
  f_equal. apply IH. intros Hin. apply H. now right.
Qed.

End JoinFacts.

Module PairFacts.
Import PyStr Spec Render.

Lemma piece_facts kv :
  clean_pair kv ->
  strip (pair_text kv) = pair_text kv
  /\ pair_text kv <> ""
  /\ contains "," (pair_text kv) = false
  /\ contains "=" (pair_text kv) = true
  /\ key_of (pair_text kv) = fst kv
  /\ value_of (pair_text kv) = snd kv.
Proof.
  destruct kv as [k v]. unfold clean_pair, pair_text. cbn [fst snd].
  change (k ++ "=" ++ v) with (k ++ String "=" v).
  intros (Hk & Hkc & Hke & Hv & Hvc).
  split; [now apply JoinFacts.pair_text_stripped|].
  split; [destruct k; discriminate|].
  split; [rewrite CharFacts.has_app, Hkc, CharFacts.has_cons, Hvc; reflexivity|].
  split; [rewrite CharFacts.has_app, CharFacts.has_cons; apply orb_true_r|].
  unfold key_of, value_of.
  now rewrite JoinFacts.before_first_app, JoinFacts.after_first_app, Hk, Hv.
Qed.

Lemma kept_pieces l :
  (forall p, In p l -> strip p = p /\ p <> "") ->
  filter bool_of_str (map strip l) = l.
Proof.
  induction l as [|p r IH]; [reflexivity|]. intros Hl.
  destruct (Hl p (or_introl eq_refl)) as [Hp Hne].
  cbn [map filter]. rewrite Hp.
  rewrite (proj2 (PyStrFacts.bool_of_str_true p) Hne).
  f_equal. apply IH. intros x Hx. apply Hl. now right.
Qed.

Lemma all_have_equals l :
  (forall p, In p l -> contains "=" p = true) -> find lacks_equals l = None.
Proof.
  induction l as [|p r IH]; [reflexivity|]. intros Hl.
  cbn [find]. unfold lacks_equals at 1. rewrite (Hl p (or_introl eq_refl)).
  cbn [negb]. apply IH. intros x Hx. apply Hl. now right.
Qed.

(** Storing clean pairs with distinct keys appends them in order. *)
Lemma fold_pairs lim pairs acc :
  Forall clean_pair pairs ->
  NoDup (map fst acc ++ map fst pairs) ->
  fold_left (store key_of (fun p => converted lim (value_of p)))
    (map pair_text pairs) acc
  = (acc ++ map (fun kv => (fst kv, converted lim (snd kv))) pairs)%list.
Proof.
  revert acc. induction pairs as [|kv rest IH]; intros acc Hclean Hnodup.
  - cbn. now rewrite app_nil_r.
  - inversion Hclean as [|? ? Hkv Hrest]; subst.
    destruct (piece_facts kv Hkv) as (_ & _ & _ & _ & Hkey & Hval).
    cbn [map fold_left]. unfold store at 2. rewrite Hkey, Hval.
    cbn [map] in Hnodup.
    rewrite JoinFacts.dict_set_fresh.
    + rewrite IH; [now rewrite <- app_assoc | exact Hrest |].
      rewrite map_app, <- app_assoc. exact Hnodup.
    + intros Hin. apply NoDup_remove_2 in Hnodup. apply Hnodup.
      apply in_or_app. now left.
Qed.

End PairFacts.

Section ReadPairs.

Variable int_max_str_digits : nat.
Variable json_decode : string -> pydict + json_failure.

(** X15. A list of pairs written as [key=value] and joined with commas
    is read back in order: when the keys are distinct, keys and values
    are stripped and free of commas, the keys free of "=", and the text
    is not of the JSON form, [parse_params] returns the dict that binds
    each key, in the order written, to [convert_value] of its value. *)
Theorem parse_params_reads_pairs (pairs : list (string * string)) :
  NoDup (map fst pairs) ->
  Forall Render.clean_pair pairs ->
  PyStr.startswith (Render.join "," (map Render.pair_text pairs)) "{"
    && PyStr.endswith (Render.join "," (map Render.pair_text pairs)) "}" = false ->
  exists d,
    parse_params int_max_str_digits json_decode
      (Some (Render.join "," (map Render.pair_text pairs))) = Ok d
    /\ Forall2
         (fun kv binding =>
            fst binding = fst kv
            /\ convert_value int_max_str_digits (snd kv) = Ok (snd binding))
         pairs d.
Proof.
  intros Hnodup Hclean Hjson.
  exists (map (fun kv => (fst kv, Spec.converted int_max_str_digits (snd kv))) pairs).
  split.
  2:{ clear. induction pairs as [|kv rest IH]; constructor; [|exact IH].
      split; [reflexivity | apply convert_value_branches]. }
  destruct pairs as [|kv rest]; [reflexivity|].
  set (pairs := kv :: rest) in *.
  set (l := map Render.pair_text pairs) in *.
  assert (Hl : forall p, In p l ->
             PyStr.strip p = p /\ p <> ""
             /\ PyStr.contains "," p = false /\ PyStr.contains "=" p = true).
  { intros p Hp. apply in_map_iff in Hp. destruct Hp as (x & <- & Hx).
    rewrite Forall_forall in Hclean.
    destruct (PairFacts.piece_facts x (Hclean x Hx)) as (H1 & H2 & H3 & H4 & _).
    auto. }
  assert (Hstrip : PyStr.strip (Render.join "," l) = Render.join "," l).
  { apply JoinFacts.join_stripped. intros p Hp. destruct (Hl p Hp) as (H1 & H2 & _).
    auto. }
  assert (Hne : PyStr.bool_of_str (Render.join "," l) = true).
  { apply PyStrFacts.bool_of_str_true. unfold l, pairs. cbn [map].
    apply JoinFacts.join_nonempty.
    rewrite Forall_forall in Hclean.
    exact (proj1 (proj2 (PairFacts.piece_facts kv (Hclean kv (or_introl eq_refl))))). }
  unfold parse_params. rewrite Hne, Hstrip, Hjson. cbn [negb].
  rewrite parse_pairs_fold. cbv zeta.
  rewrite JoinFacts.split_join;
    [|unfold l, pairs; discriminate | intros p Hp; apply (Hl p Hp)].
  rewrite PairFacts.kept_pieces
    by (intros p Hp; destruct (Hl p Hp) as (H1 & H2 & _); auto).
  rewrite PairFacts.all_have_equals by (intros p Hp; apply (Hl p Hp)).
  unfold l. rewrite PairFacts.fold_pairs; [reflexivity | exact Hclean |].
  exact Hnodup.
Qed.

End ReadPairs.

(** *** The further properties on the sample host *)

Lemma handle_run_exit_code_witness :
  exists tr,
    handle_run Sample.pathlib Sample.runner (Sample.run_args "print(1)")
    = (tr, Ok 0%Z).
Proof.
  destruct (handle_run_exit_code Sample.pathlib Sample.runner
              (Sample.run_args "print(1)"))
    as (tr & code & Heq & _ & Hiff).
  exists tr. rewrite Heq. f_equal. f_equal. apply Hiff.
  split; [reflexivity|]. eexists. split; reflexivity.
Defined.

Lemma handle_run_file_missing_file_witness :
  handle_run_file Sample.max_str_digits Sample.Json.decode Sample.pathlib
    Sample.runner (Sample.run_file_args "missing.py" (Some "not a pair"))
  = ([EvWrite Stderr ("Error: File not found: missing.py" ++ nl)], Ok 1%Z).
Proof.
  apply (handle_run_file_missing_file Sample.max_str_digits Sample.Json.decode
           Sample.pathlib Sample.runner
           (Sample.run_file_args "missing.py" (Some "not a pair"))).
  reflexivity.
Defined.

Lemma handle_run_file_bad_params_witness :
  handle_run_file Sample.max_str_digits Sample.Json.decode Sample.pathlib
    Sample.runner (Sample.run_file_args "train.py" (Some "oops"))
  = ([EvWrite Stderr
        ("Error: Invalid params format: Invalid parameter format: 'oops'. Expected 'key=value' or JSON."
         ++ nl)],
     Ok 1%Z)
  /\ handle_run_file Sample.max_str_digits Sample.Json.decode Sample.pathlib
       Sample.runner (Sample.run_file_args "train.py" (Some Sample.deep_json))
     = ([],
        Raise (mkExn RecursionError
                 "maximum recursion depth exceeded while decoding a JSON array from a unicode string")).
Proof.
  split.
  - apply (handle_run_file_bad_params Sample.max_str_digits Sample.Json.decode
             Sample.pathlib Sample.runner
             (Sample.run_file_args "train.py" (Some "oops")) (invalid_pair "oops"));
      reflexivity.
  - apply (handle_run_file_bad_params Sample.max_str_digits Sample.Json.decode
             Sample.pathlib Sample.runner
             (Sample.run_file_args "train.py" (Some Sample.deep_json))
             (mkExn RecursionError
                "maximum recursion depth exceeded while decoding a JSON array from a unicode string"));
      [reflexivity | reflexivity | vm_compute; reflexivity].
Defined.

Lemma session_not_entered_witness :
  handle_run Sample.pathlib Sample.runner
    (mkRunArgs "print(1)" "" None "python3" Sample.sixty)
  = ([EvEnter (mkConfig "" None "python3");
      EvWrite Stderr ("Error: Failed to connect" ++ nl)],
     Ok 1%Z).
Proof.
  apply (proj1 (session_not_entered Sample.max_str_digits Sample.Json.decode
                  Sample.pathlib Sample.runner)
           (mkRunArgs "print(1)" "" None "python3" Sample.sixty)
           (mkExn PyrunJupyterError "Failed to connect")).
  reflexivity.
Defined.

Lemma call_raises_witness :
  handle_run_file Sample.max_str_digits Sample.Json.decode Sample.pathlib
    Sample.runner
    (mkRunFileArgs "train.py" "http://localhost:8888" None "" None Sample.sixty)
  = ([EvEnter (mkConfig "http://localhost:8888" None "");
      EvRunFile "train.py" None Sample.sixty;
      EvExit;
      EvWrite Stderr ("Unexpected error: no kernel" ++ nl)],
     Ok 1%Z).
Proof.
  apply (proj2 (call_raises Sample.max_str_digits Sample.Json.decode
                  Sample.pathlib Sample.runner)
           (mkRunFileArgs "train.py" "http://localhost:8888" None "" None Sample.sixty)
           [] (mkExn OtherError "no kernel"));
    reflexivity.
Defined.

Lemma success_output_witness :
  handle_run Sample.pathlib Sample.runner (Sample.run_args "print(1)")
  = ([EvEnter (mkConfig "http://localhost:8888" (Some "xxx") "python3");
      EvRun "print(1)" Sample.sixty;
      EvWrite Stdout "ok";
      EvExit],
     Ok 0%Z).
Proof.
  apply (proj1 (success_output Sample.max_str_digits Sample.Json.decode
                  Sample.pathlib Sample.runner)
           (Sample.run_args "print(1)") (mkResult "ok" "" false None []));
    reflexivity.
Defined.

Lemma main_exit_code_witness :
  main Sample.max_str_digits Sample.Json.decode Sample.pathlib Sample.runner
    NoCommand
  = ([EvHelp], Ok 1%Z).
Proof.
  destruct (main_exit_code Sample.max_str_digits Sample.Json.decode
              Sample.pathlib Sample.runner NoCommand)
    as (tr & outcome & Heq & _ & Hhelp & _).
  destruct (Hhelp eq_refl) as [Htr Hout]. rewrite Heq, Htr, Hout. reflexivity.
Defined.

Lemma parse_params_raises_value_error_witness :
  exn_cls (invalid_pair "oops") = ValueError.
Proof.
  apply (parse_params_raises_value_error Sample.max_str_digits Sample.Json.decode
           (Some "oops") (invalid_pair "oops")); reflexivity.
Defined.

Lemma convert_value_quoted_witness :
  convert_value Sample.max_str_digits "'123'" = Ok (VStr "123").
Proof.
  apply (convert_value_quoted Sample.max_str_digits "'" "123").
  right. reflexivity.
Defined.

Lemma convert_value_reads_back_witness :
  convert_value Sample.max_str_digits "-42" = Ok (VInt (-42)).
Proof.
  apply (convert_value_reads_back Sample.max_str_digits (VInt (-42)) "-42");
    reflexivity.
Defined.

Lemma key_value_invariants_witness :
  PyStr.strip "name" = "name"
  /\ PyStr.contains "," "name" = false
  /\ PyStr.contains "=" "name" = false
  /\ Spec.is_scalar (VStr "a b") = true
  /\ (forall t, VStr "a b" = VStr t -> PyStr.contains "," t = false).
Proof.
  apply (key_value_invariants Sample.max_str_digits Sample.Json.decode
           " lr = 0.01 , name='a b'"
           [("lr", VFloat (FDec false 1 (-2))); ("name", VStr "a b")]).
  - reflexivity.
  - reflexivity.
  - right. left. reflexivity.
Defined.

Lemma parse_params_reads_pairs_witness :
  exists d,
    parse_params Sample.max_str_digits Sample.Json.decode
      (Some "lr=0.01,epochs=100") = Ok d
    /\ Forall2
         (fun kv binding =>
            fst binding = fst kv
            /\ convert_value Sample.max_str_digits (snd kv) = Ok (snd binding))
         [("lr", "0.01"); ("epochs", "100")] d.
Proof.
  apply (parse_params_reads_pairs Sample.max_str_digits Sample.Json.decode
           [("lr", "0.01"); ("epochs", "100")]).
  - repeat constructor; cbn; intuition discriminate.
  - repeat constructor.
  - reflexivity.
Defined.
